(** * Asynchronous job lifecycle of the video-generation scripts

    A shallow embedding of the submit / poll / fetch flow of
    [scripts/closed_source/minMax_hailuo.py], [piapi_kling.py] and
    [runway_gen2.py].

    The scripts talk to the outside through four kinds of effects:
    HTTP requests, [time.sleep], [print] and writing the output file.
    They are modelled by a state-and-exception monad over a [world]:
    the simulated clock (advanced by sleeps only), the number of status
    requests that reached the provider, the printed lines and the
    filesystem.  The provider is an [env] record of responders, one per
    endpoint; the n-th status request is answered by [status_resp n].

    The poll loops are [while True] loops.  They are modelled by a
    [tick] function (one iteration) and a fuel-indexed iterator that
    returns [None] when the fuel is used up with the loop still
    running.

    What is left out: command-line parsing, the API key, the encoding
    of the image and the choice of the output path (main is modelled
    from the submission on, with the poll interval and the output path
    as parameters); the printed durations (floating point).  The runs
    of main are modelled on a disk that takes every write; a write that
    fails is modelled for the fetch alone ([write_file_on]).

    A string stands for the sequence of its characters, each a code
    point below 256.  A JSON answer is a record of the fields the
    script reads, each an option ([None]: the key is absent); the
    values are taken to have the types the scripts expect (the body an
    object, a status a string, the logs a list of objects). *)

From Stdlib Require Import ZArith Lia.
From stdpp Require Import gmap strings list fin_maps.

Local Open Scope Z_scope.

(** ** The world and the effect monad *)

Abbreviation bytes := (list Byte.byte).

(** What [requests.get]/[requests.post] can come back with: an exception
    (connection refused, connection dropped while the body is read, ...)
    or a response with a status code and a body. *)
Inductive http (B : Type) : Type :=
| NetErr
| Resp (code : Z) (body : B).
Arguments NetErr {B}.
Arguments Resp {B} code body.

(** Exceptions the scripts can meet in the modelled part. *)
Inductive exn : Type :=
| ConnectionError   (* raised by requests.get / requests.post *)
| JSONDecodeError   (* raised by response.json() *)
| ValueError        (* raised by time.sleep on a negative length *)
| OverflowError     (* raised by time.sleep on a length beyond its range *)
| OSError           (* raised by open or f.write *)
| Base64Error.      (* binascii.Error, raised by base64.b64decode *)

(** [time.sleep] turns a length in seconds into a count of nanoseconds
    in 64 bits: a whole number of seconds beyond this limit, in either
    sign, is refused with OverflowError before its sign is looked at. *)
Definition sleep_limit : Z := 9223372036.

(** What the disk makes of [with open(path, 'wb') as f: f.write(content)]:
    the write goes through; [open] raises and nothing is created; or
    [open] has created or emptied the file and the write raises after
    [written] bytes. *)
Inductive write_fate : Type :=
| WriteDone
| OpenFails
| WriteFails (written : nat).

Section Effects.
Context {msg : Type}.

Record world : Type := World {
  now   : Z;                     (* seconds slept so far *)
  polls : nat;                   (* status requests issued so far *)
  out   : list msg;              (* printed lines, oldest first *)
  disk  : gmap string bytes      (* files by path *)
}.

Inductive res (A : Type) : Type :=
| Val (a : A) (w : world)
| Exc (e : exn) (w : world).
Arguments Val {A} a w.
Arguments Exc {A} e w.

Definition M (A : Type) : Type := world -> res A.

Definition ret {A} (a : A) : M A := fun w => Val a w.

Definition bind {A B} (m : M A) (k : A -> M B) : M B :=
  fun w => match m w with
           | Val a w' => k a w'
           | Exc e w' => Exc e w'
           end.

Definition raise {A} (e : exn) : M A := fun w => Exc e w.

(** [try: m except Exception: h] *)
Definition catch {A} (m : M A) (h : exn -> M A) : M A :=
  fun w => match m w with
           | Val a w' => Val a w'
           | Exc e w' => h e w'
           end.

Definition print (m : msg) : M unit :=
  fun w => Val tt (World (now w) (polls w) (out w ++ [m]) (disk w)).

(** [time.sleep(secs)] on a whole number of seconds: OverflowError
    beyond [sleep_limit] in either sign, else ValueError on a negative
    length. *)
Definition sleep (secs : Z) : M unit :=
  fun w => if (secs <? - sleep_limit) || (sleep_limit <? secs)
           then Exc OverflowError w
           else if secs <? 0 then Exc ValueError w
           else Val tt (World (now w + secs) (polls w) (out w) (disk w)).

(** [with open(path, 'wb') as f: f.write(content)], on a disk that
    takes the write. *)
Definition write_file (path : string) (content : bytes) : M unit :=
  fun w => Val tt (World (now w) (polls w) (out w) (<[path := content]> (disk w))).

(** The same statement on a disk that may refuse: nothing is cleaned
    up, so a write that raises leaves what it had written. *)
Definition write_file_on (fate : write_fate) (path : string) (content : bytes)
  : M unit :=
  fun w => match fate with
           | WriteDone =>
               Val tt (World (now w) (polls w) (out w)
                             (<[path := content]> (disk w)))
           | OpenFails => Exc OSError w
           | WriteFails written =>
               Exc OSError (World (now w) (polls w) (out w)
                                  (<[path := take written content]> (disk w)))
           end.

(** One status request reaches the provider; [answer n] is what the
    provider says to the n-th one (counting from 0). *)
Definition status_request {B} (answer : nat -> http B) : M (Z * B) :=
  fun w => let w' := World (now w) (S (polls w)) (out w) (disk w) in
           match answer (polls w) with
           | NetErr => Exc ConnectionError w'
           | Resp code body => Val (code, body) w'
           end.

(** Any other request: no counter to advance. *)
Definition request {B} (answer : http B) : M (Z * B) :=
  fun w => match answer with
           | NetErr => Exc ConnectionError w
           | Resp code body => Val (code, body) w
           end.

(** [response.json()] on a body that may not be valid JSON. *)
Definition json {B} (body : option B) : M B :=
  match body with
  | Some b => ret b
  | None => raise JSONDecodeError
  end.

(** The result of a decoder that may raise binascii.Error. *)
Definition decoded {B} (result : option B) : M B :=
  match result with
  | Some b => ret b
  | None => raise Base64Error
  end.

Definition final_world {A} (r : res A) : world :=
  match r with Val _ w => w | Exc _ w => w end.

Definition value {A} (r : res A) : option A :=
  match r with Val a _ => Some a | Exc _ _ => None end.
End Effects.

Arguments world msg : clear implicits.
Arguments res msg A : clear implicits.
Arguments Val {msg A} a w.
Arguments Exc {msg A} e w.
Arguments M msg A : clear implicits.

Notation "'let*' x ':=' m 'in' k" := (bind m (fun x => k))
  (at level 10, x pattern, m at level 100, k at level 200).
Notation "m '>>' k" := (bind m (fun _ => k))
  (at level 80, right associativity).

(** Python's truth value of a string that may be None. *)
Definition truthy (s : option string) : bool :=
  match s with
  | Some s => negb (String.eqb s "")
  | None => false
  end.

(** [d.get(key, dflt)] on a key that may be absent. *)
Definition get_or {A} (field : option A) (dflt : A) : A :=
  match field with Some a => a | None => dflt end.

(** The three ways an iteration of a [while True] loop can end. *)
Inductive flow : Type :=
| Next      (* reached the end of the body, or [continue] *)
| Break     (* [break] *)
| Return.   (* [return] from main *)

(** [x in [a, b, ...]] on strings. *)
Definition mem_str (x : string) (l : list string) : bool :=
  existsb (String.eqb x) l.

(** ** minMax_hailuo.py *)

Module MiniMax.

(** The fields the script reads from each JSON answer; [None] is an
    absent key.  [base_resp] stands for the rest of the status
    payload (the provider's own status message), which the script
    never reads. *)
Record submit_body := { task_id : option string }.
Record status_body := {
  status    : option string;
  file_id   : option string;
  base_resp : string
}.
Record retrieve_body := { download_url : option string }.

Record env := {
  submit_resp   : http (option submit_body);
  status_resp   : string -> nat -> http (option status_body);
  retrieve_resp : string -> http (option retrieve_body);
  download_resp : string -> http bytes
}.

Inductive msg : Type :=
| MSubmitting
| MSubmitFailed (code : Z)
| MRequestCompleted
| MSubmitBadJson
| MNoTaskId
| MSubmitted (task : string)
| MPolling (attempt : nat)
| MQueryError (code : Z)
| MStatus (status : string)
| MGenCompleted
| MRetrieving
| MRetrieveError (code : Z)
| MNoDownloadUrl
| MDownloadUrl (url : string)
| MDownloading
| MDownloadError (code : Z)
| MDownloaded
| MSaved (path : string)
| MStats (poll_count : nat)
| MGenFailed.

(** How [main] can end (it returns None in every case; the label
    names the statement that ended it). *)
Inductive exit : Type :=
| SubmitRejected (code : Z)   (* return, line 184 *)
| SubmitUnparsable            (* return, line 193 *)
| NoTaskId                    (* return, line 200 *)
| Finished                    (* break, line 231, then the end of main *)
| GenerationFailed.           (* return, line 236 *)

Section Script.
Variable e : env.
Variable poll_interval : Z.
Variable output_path : string.

Definition query_video_generation (task : string)
  : M msg (option string * string) :=
  let* (code, body) := status_request (status_resp e task) in
  if negb (code =? 200) then
    print (MQueryError code) >>
    ret (None, "Error"%string)
  else
    let* response_data := json body in
    let status := get_or (status response_data) "" in
    if String.eqb status "Success" then
      let file_id := get_or (file_id response_data) "" in
      ret (Some file_id, "Success"%string)
    else
      ret (None, status).

Definition fetch_video_result (file : string) (output : string)
  : M msg bool :=
  print MRetrieving >>
  let* (code, body) := request (retrieve_resp e file) in
  if negb (code =? 200) then
    print (MRetrieveError code) >>
    ret false
  else
    let* response_data := json body in
    let download_url := get_or (download_url response_data) "" in
    if String.eqb download_url "" then
      print MNoDownloadUrl >>
      ret false
    else
      print (MDownloadUrl download_url) >>
      print MDownloading >>
      let* (code, content) := request (download_resp e download_url) in
      if negb (code =? 200) then
        print (MDownloadError code) >>
        ret false
      else
        write_file output content >>
        print MDownloaded >>
        ret true.

(** fetch_video_result on a disk that may refuse the write of
    lines 107-108. *)
Definition fetch_video_result_on (fate : write_fate)
           (file : string) (output : string) : M msg bool :=
  print MRetrieving >>
  let* (code, body) := request (retrieve_resp e file) in
  if negb (code =? 200) then
    print (MRetrieveError code) >>
    ret false
  else
    let* response_data := json body in
    let download_url := get_or (download_url response_data) "" in
    if String.eqb download_url "" then
      print MNoDownloadUrl >>
      ret false
    else
      print (MDownloadUrl download_url) >>
      print MDownloading >>
      let* (code, content) := request (download_resp e download_url) in
      if negb (code =? 200) then
        print (MDownloadError code) >>
        ret false
      else
        write_file_on fate output content >>
        print MDownloaded >>
        ret true.

(** One iteration of the [while True] loop of main (lines 209-239);
    [poll_count] is the value after the increment of line 209. *)
Definition tick (task : string) (poll_count : nat) : M msg flow :=
  print (MPolling poll_count) >>
  let* (file_id, status) := query_video_generation task in
  print (MStatus status) >>
  if String.eqb status "Success" && truthy file_id then
    print MGenCompleted >>
    let* ok := fetch_video_result (get_or file_id "") output_path in
    (if ok : bool then
       print (MSaved output_path) >>
       print (MStats poll_count)
     else ret tt) >>
    ret Break
  else if mem_str status ["Fail"; "Error"; "Unknown"]%string then
    print MGenFailed >>
    ret Return
  else
    sleep poll_interval >>
    ret Next.

(** The loop, cut after [fuel] iterations: [None] means that the
    loop is still running when the fuel is used up. *)
Fixpoint poll (fuel : nat) (task : string) (poll_count : nat)
  : M msg (option flow) :=
  match fuel with
  | O => ret None
  | S fuel' =>
      let* f := tick task (S poll_count) in
      match f with
      | Next => poll fuel' task (S poll_count)
      | Break => ret (Some Break)
      | Return => ret (Some Return)
      end
  end.

(** How main ends once the loop is left: after [break] it runs off
    its end, [return] leaves it at once. *)
Definition exit_of (f : option flow) : option exit :=
  match f with
  | None => None
  | Some Return => Some GenerationFailed
  | Some _ => Some Finished
  end.

(** main, from the submission (line 176) on. *)
Definition main (fuel : nat) : M msg (option exit) :=
  print MSubmitting >>
  let* (code, body) := request (submit_resp e) in
  if negb (code =? 200) then
    print (MSubmitFailed code) >>
    ret (Some (SubmitRejected code))
  else
    print MRequestCompleted >>
    match body with
    | None =>
        print MSubmitBadJson >>
        ret (Some SubmitUnparsable)
    | Some response_data =>
        let task := task_id response_data in
        if negb (truthy task) then
          print MNoTaskId >>
          ret (Some NoTaskId)
        else
          let task := get_or task "" in
          print (MSubmitted task) >>
          let* f := poll fuel task 0%nat in
          ret (exit_of f)
    end.
End Script.

(** *** What the loop makes of an answer

    [verdict_of] and [fetch_of] read the provider's answers the way
    [tick] and [fetch_video_result] do, without the effects; the
    lemmas [tick_spec] and [fetch_spec] below relate them to the
    code. *)
Inductive verdict : Type :=
| Succeeded (file : string)   (* "Success" with a non-empty file_id *)
| Failed (status : string)    (* "Fail", "Error", "Unknown" *)
| Rejected (code : Z)         (* the status request was not answered 200 *)
| Pending (status : string)   (* anything else: sleep and ask again *)
| Crashed (ex : exn).         (* the request or response.json() raised *)

Definition verdict_of (a : http (option status_body)) : verdict :=
  match a with
  | NetErr => Crashed ConnectionError
  | Resp code body =>
      if negb (code =? 200) then Rejected code
      else match body with
           | None => Crashed JSONDecodeError
           | Some b =>
               let s := get_or (status b) "" in
               if String.eqb s "Success" then
                 if String.eqb (get_or (file_id b) "") "" then Pending s
                 else Succeeded (get_or (file_id b) "")
               else if mem_str s ["Fail"; "Error"; "Unknown"]%string then Failed s
               else Pending s
           end
  end.

Inductive fetched : Type :=
| Stored (url : string) (content : bytes)
| Refused (lines : list msg)            (* returned False after these lines *)
| Dropped (ex : exn) (lines : list msg). (* raised after these lines *)

Definition fetch_of (e : env) (file : string) : fetched :=
  match retrieve_resp e file with
  | NetErr => Dropped ConnectionError [MRetrieving]
  | Resp code body =>
      if negb (code =? 200) then Refused [MRetrieving; MRetrieveError code]
      else match body with
           | None => Dropped JSONDecodeError [MRetrieving]
           | Some b =>
               let url := get_or (download_url b) "" in
               if String.eqb url "" then Refused [MRetrieving; MNoDownloadUrl]
               else match download_resp e url with
                    | NetErr =>
                        Dropped ConnectionError
                                [MRetrieving; MDownloadUrl url; MDownloading]
                    | Resp code content =>
                        if negb (code =? 200) then
                          Refused [MRetrieving; MDownloadUrl url; MDownloading;
                                   MDownloadError code]
                        else Stored url content
                    end
           end
  end.

(** The world after one more status request and some printed lines. *)
Definition asked (w : world msg) (lines : list msg) : world msg :=
  World (now w) (S (polls w)) (out w ++ lines) (disk w).

Definition is_fetch_error (m : msg) : bool :=
  match m with
  | MRetrieveError _ | MNoDownloadUrl | MDownloadError _ => true
  | _ => false
  end.

Definition is_pending (v : verdict) : bool :=
  match v with Pending _ => true | _ => false end.



Definition is_gen_completed (m : msg) : bool :=
  match m with MGenCompleted => true | _ => false end.

Definition is_gen_failed (m : msg) : bool :=
  match m with MGenFailed => true | _ => false end.

(** How a run of the loop that printed [lines] from [w] on can have
    ended. *)
Definition ending (output_path : string) (w : world msg)
           (r : res msg (option flow)) (lines : list msg) : Prop :=
  out (final_world r) = out w ++ lines /\
  match value r with
  | Some None =>
      existsb is_gen_completed lines = false /\
      existsb is_gen_failed lines = false /\
      disk (final_world r) = disk w
  | Some (Some Return) =>
      existsb is_gen_completed lines = false /\
      existsb is_gen_failed lines = true /\
      last lines = Some MGenFailed /\
      disk (final_world r) = disk w
  | Some (Some Break) =>
      existsb is_gen_completed lines = true /\
      existsb is_gen_failed lines = false /\
      ((exists content,
           disk (final_world r) = <[output_path := content]> (disk w)) \/
       (disk (final_world r) = disk w /\
        exists line, last lines = Some line /\ is_fetch_error line = true))
  | Some (Some Next) => False
  | None =>
      existsb is_gen_failed lines = false /\
      disk (final_world r) = disk w
  end.

(** The task id of an accepted submission. *)
Definition accepted (e : env) : option string :=
  match submit_resp e with
  | Resp code (Some response_data) =>
      if (code =? 200) && truthy (task_id response_data)
      then task_id response_data else None
  | _ => None
  end.

(** Environments for the examples: the submission is accepted with
    task id "abc123", the status requests are answered from a list,
    then always by [rest]; the download is answered by [dl]. *)
Definition scripted (answers : list (http (option status_body)))
           (rest : http (option status_body)) (dl : http bytes) : env := {|
  submit_resp   := Resp 200 (Some {| task_id := Some "abc123"%string |});
  status_resp   := fun _ i => nth i answers rest;
  retrieve_resp := fun _ => Resp 200 (Some {| download_url := Some "https://cdn/v.mp4"%string |});
  download_resp := fun _ => dl
|}.

Definition always (a : http (option status_body)) : env :=
  scripted [] a (Resp 200 []).

Definition rejecting (code : Z) : env := {|
  submit_resp   := Resp code None;
  status_resp   := fun _ _ => NetErr;
  retrieve_resp := fun _ => NetErr;
  download_resp := fun _ => NetErr
|}.

Definition answer (s : string) (file : option string) (rest : string)
  : http (option status_body) :=
  Resp 200 (Some {| status := Some s; file_id := file; base_resp := rest |}).

(** Scenario A of the specification: "Processing", then "Success"
    with the locator "loc-1"; the download brings three bytes. *)
Definition scenario_A : env :=
  scripted [answer "Processing" None ""; answer "Success" (Some "loc-1"%string) ""]
           NetErr (Resp 200 [Byte.x01; Byte.x02; Byte.x03]).

(** Scenario B: the first poll says "Fail"; the provider's reason is
    in the part of the payload that the script does not read. *)
Definition scenario_B (reason : string) : env :=
  scripted [answer "Fail" None reason] NetErr NetErr.

(** Scenario C: every poll says "Processing". *)
Definition scenario_C : env := always (answer "Processing" None "").
End MiniMax.

(** [str.lower()] on one character below 256: the capitals are A-Z and,
    in the upper half, 192-222 without the multiplication sign 215;
    each has its small letter 32 places up. *)
Definition lower_char (c : Ascii.ascii) : Ascii.ascii :=
  let n := Ascii.nat_of_ascii c in
  if ((65 <=? n)%nat && (n <=? 90)%nat)
     || ((192 <=? n)%nat && (n <=? 222)%nat && negb (n =? 215)%nat)
  then Ascii.ascii_of_nat (n + 32) else c.

Fixpoint lower (s : string) : string :=
  match s with
  | EmptyString => EmptyString
  | String c s' => String (lower_char c) (lower s')
  end.

(** ** piapi_kling.py *)

Module PiAPI.

(** [data.error] of a status answer: every key may be absent. *)
Record error_obj := {
  message     : option string;
  err_code    : option string;
  raw_message : option string;
  detail      : option string
}.

Record submit_body := {
  code    : option Z;
  sb_message : option string;
  task_id : option string          (* data.task_id *)
}.

(** A status answer; the "final result" request of line 244 goes to
    the same URL and has the same shape.  An entry of [logs] is the
    value under its "progress" key, when it has one. *)
Record status_body := {
  st_code   : option Z;
  st_message : option string;
  status    : option string;       (* data.status *)
  error     : error_obj;           (* data.error *)
  logs      : list (option string);
  video_url : option string        (* data.output.video_url *)
}.

Record env := {
  submit_resp   : http (option submit_body);
  status_resp   : string -> nat -> http (option status_body);
  download_resp : string -> http bytes
}.

Inductive msg : Type :=
| MSending
| MApiRequestFailed (code : Z) (is_json : bool)
| MApiResponseError (code : option Z) (message : option string)
| MNoTaskId
| MSubmitted (task : string)
| MWaiting
| MStatusCheckFailed (code : Z) (is_json : bool)
| MStatusCheckError (code : option Z) (message : option string)
| MCompleted
| MTaskFailed (code message raw detail : string)
| MTaskLogs (logs : list (option string))
| MFullData
| MProgress (status progress : string)
| MFinalError (code : Z)
| MNoVideoUrl
| MGenTime
| MDownloadingFrom (url : string)
| MDownloadError (code : Z)
| MSaved (path : string)
| MException (e : exn).

Inductive exit : Type :=
| SubmitRejected (code : Z)     (* return, line 153 *)
| SubmitApiError                (* return, line 163 *)
| NoTaskId                      (* return, line 170 *)
| TaskFailed                    (* return, line 234 *)
| FinalRejected (code : Z)      (* return, line 248 *)
| NoVideoUrl                    (* return, line 257 *)
| DownloadRejected (code : Z)   (* return, line 268 *)
| Saved                         (* end of the try block, line 273 *)
| Caught (e : exn).             (* except Exception, line 275 *)

Definition is_some {A} (o : option A) : bool :=
  match o with Some _ => true | None => false end.

(** Lines 237-240: the progress of the last log entry that has one. *)
Definition last_progress (logs : list (option string)) : string :=
  fold_left (fun progress log =>
               match log with
               | Some p => p
               | None => progress
               end) logs "unknown"%string.

Section Script.
Variable e : env.
Variable output_path : string.

(** One iteration of the [while True] loop (lines 177-241). *)
Definition tick (task : string) : M msg flow :=
  print MWaiting >>
  sleep 5 >>
  let* (code, body) := status_request (status_resp e task) in
  if negb (code =? 200) then
    print (MStatusCheckFailed code (is_some body)) >>
    ret Next
  else
    let* status_data := json body in
    if negb (bool_decide (st_code status_data = Some 200)) then
      print (MStatusCheckError (st_code status_data) (st_message status_data)) >>
      ret Next
    else
      let task_status := lower (get_or (status status_data) "") in
      if String.eqb task_status "completed" || String.eqb task_status "Completed" then
        print MCompleted >>
        ret Break
      else if String.eqb task_status "failed" then
        let error_obj := error status_data in
        let error_message := get_or (message error_obj) "No error message" in
        let error_code := get_or (err_code error_obj) "No error code" in
        let error_raw := get_or (raw_message error_obj) "No raw error message" in
        let error_detail := get_or (detail error_obj) "No error details" in
        print (MTaskFailed error_code error_message error_raw error_detail) >>
        let logs := logs status_data in
        (if negb (bool_decide (logs = [])) then print (MTaskLogs logs)
         else ret tt) >>
        print MFullData >>
        ret Return
      else
        print (MProgress task_status (last_progress (logs status_data))) >>
        ret Next.

Fixpoint poll (fuel : nat) (task : string) : M msg (option flow) :=
  match fuel with
  | O => ret None
  | S fuel' =>
      let* f := tick task in
      match f with
      | Next => poll fuel' task
      | Break => ret (Some Break)
      | Return => ret (Some Return)
      end
  end.

(** Lines 243-273: what follows the loop once it is left by [break]. *)
Definition fetch (task : string) : M msg exit :=
  let* (code, body) := status_request (status_resp e task) in
  if negb (code =? 200) then
    print (MFinalError code) >>
    ret (FinalRejected code)
  else
    let* final_data := json body in
    let video_url := video_url final_data in
    if negb (truthy video_url) then
      print MNoVideoUrl >>
      ret NoVideoUrl
    else
      let video_url := get_or video_url "" in
      print MGenTime >>
      print (MDownloadingFrom video_url) >>
      let* (code, content) := request (download_resp e video_url) in
      if negb (code =? 200) then
        print (MDownloadError code) >>
        ret (DownloadRejected code)
      else
        write_file output_path content >>
        print (MSaved output_path) >>
        ret Saved.

(** Lines 243-273 on a disk that may refuse the write of lines
    270-271. *)
Definition fetch_on (fate : write_fate) (task : string) : M msg exit :=
  let* (code, body) := status_request (status_resp e task) in
  if negb (code =? 200) then
    print (MFinalError code) >>
    ret (FinalRejected code)
  else
    let* final_data := json body in
    let video_url := video_url final_data in
    if negb (truthy video_url) then
      print MNoVideoUrl >>
      ret NoVideoUrl
    else
      let video_url := get_or video_url "" in
      print MGenTime >>
      print (MDownloadingFrom video_url) >>
      let* (code, content) := request (download_resp e video_url) in
      if negb (code =? 200) then
        print (MDownloadError code) >>
        ret (DownloadRejected code)
      else
        write_file_on fate output_path content >>
        print (MSaved output_path) >>
        ret Saved.

(** The try block of main (lines 138-273). *)
Definition main_body (fuel : nat) : M msg (option exit) :=
  print MSending >>
  let* (code, body) := request (submit_resp e) in
  if negb (code =? 200) then
    print (MApiRequestFailed code (is_some body)) >>
    ret (Some (SubmitRejected code))
  else
    let* response_data := json body in
    if negb (bool_decide (PiAPI.code response_data = Some 200)) then
      print (MApiResponseError (PiAPI.code response_data) (sb_message response_data)) >>
      ret (Some SubmitApiError)
    else
      let task := task_id response_data in
      if negb (truthy task) then
        print MNoTaskId >>
        ret (Some NoTaskId)
      else
        let task := get_or task "" in
        print (MSubmitted task) >>
        let* f := poll fuel task in
        match f with
        | None => ret None
        | Some Return => ret (Some TaskFailed)
        | Some _ =>
            let* x := fetch task in
            ret (Some x)
        end.

(** main from line 135 on: the try block and its handler. *)
Definition main (fuel : nat) : M msg (option exit) :=
  catch (main_body fuel)
        (fun ex => print (MException ex) >> ret (Some (Caught ex))).
End Script.

(** *** What the loop makes of an answer *)
Inductive verdict : Type :=
| Completed
| Failed (code message raw detail : string) (logs : list (option string))
| Retry (line : msg)       (* [continue], or the end of the loop body *)
| Crashed (ex : exn).

Definition verdict_of (a : http (option status_body)) : verdict :=
  match a with
  | NetErr => Crashed ConnectionError
  | Resp code body =>
      if negb (code =? 200) then Retry (MStatusCheckFailed code (is_some body))
      else match body with
           | None => Crashed JSONDecodeError
           | Some b =>
               if negb (bool_decide (st_code b = Some 200)) then
                 Retry (MStatusCheckError (st_code b) (st_message b))
               else
                 let s := lower (get_or (status b) "") in
                 if String.eqb s "completed" || String.eqb s "Completed" then Completed
                 else if String.eqb s "failed" then
                   Failed (get_or (err_code (error b)) "No error code")
                          (get_or (message (error b)) "No error message")
                          (get_or (raw_message (error b)) "No raw error message")
                          (get_or (detail (error b)) "No error details")
                          (logs b)
                 else Retry (MProgress s (last_progress (logs b)))
           end
  end.

(** What the failed branch prints (lines 209-232). *)
Definition failure_lines (code message raw detail : string)
           (logs : list (option string)) : list msg :=
  MTaskFailed code message raw detail
    :: (if negb (bool_decide (logs = [])) then [MTaskLogs logs] else [])
    ++ [MFullData].

(** The world after the 5 s sleep, one more status request and some
    printed lines. *)
Definition slept (w : world msg) (lines : list msg) : world msg :=
  World (now w + 5) (S (polls w)) (out w ++ lines) (disk w).

Definition asked (w : world msg) (lines : list msg) : world msg :=
  World (now w) (S (polls w)) (out w ++ lines) (disk w).

Inductive fetched : Type :=
| Stored (url : string) (content : bytes)
| Refused (x : exit) (lines : list msg)   (* returned after these lines *)
| Dropped (ex : exn) (lines : list msg).  (* raised after these lines *)

(** What [fetch] meets when its request is the [n]-th status request. *)
Definition fetch_of (e : env) (task : string) (n : nat) : fetched :=
  match status_resp e task n with
  | NetErr => Dropped ConnectionError []
  | Resp code body =>
      if negb (code =? 200) then Refused (FinalRejected code) [MFinalError code]
      else match body with
           | None => Dropped JSONDecodeError []
           | Some b =>
               if negb (truthy (video_url b)) then Refused NoVideoUrl [MNoVideoUrl]
               else
                 let url := get_or (video_url b) "" in
                 match download_resp e url with
                 | NetErr => Dropped ConnectionError [MGenTime; MDownloadingFrom url]
                 | Resp code content =>
                     if negb (code =? 200) then
                       Refused (DownloadRejected code)
                               [MGenTime; MDownloadingFrom url; MDownloadError code]
                     else Stored url content
                 end
           end
  end.

Definition is_fetch_error (m : msg) : bool :=
  match m with
  | MFinalError _ | MNoVideoUrl | MDownloadError _ | MException _ => true
  | _ => false
  end.

Definition is_task_failed (m : msg) : bool :=
  match m with MTaskFailed _ _ _ _ => true | _ => false end.

Definition is_completed (m : msg) : bool :=
  match m with MCompleted => true | _ => false end.


(** The ways main ends when the video was generated but not saved. *)
Definition is_delivery_exit (x : exit) : bool :=
  match x with
  | FinalRejected _ | NoVideoUrl | DownloadRejected _ | Caught _ => true
  | _ => false
  end.

Definition is_retry (v : verdict) : bool :=
  match v with Retry _ => true | _ => false end.

(** How a run of the loop that printed [lines] from [w] on can have
    ended; the loop itself never touches the disk. *)
Definition ending (w : world msg) (r : res msg (option flow))
           (lines : list msg) : Prop :=
  out (final_world r) = out w ++ lines /\
  disk (final_world r) = disk w /\
  match value r with
  | Some None | None =>
      existsb is_completed lines = false /\
      existsb is_task_failed lines = false
  | Some (Some Return) =>
      existsb is_completed lines = false /\
      existsb is_task_failed lines = true
  | Some (Some Break) =>
      existsb is_completed lines = true /\
      existsb is_task_failed lines = false
  | Some (Some Next) => False
  end.

(** The task id of an accepted submission. *)
Definition accepted (e : env) : option string :=
  match submit_resp e with
  | Resp code (Some response_data) =>
      if (code =? 200) && bool_decide (PiAPI.code response_data = Some 200)
         && truthy (task_id response_data)
      then task_id response_data else None
  | _ => None
  end.

Definition scripted (answers : list (http (option status_body)))
           (rest : http (option status_body)) (dl : http bytes) : env := {|
  submit_resp   := Resp 200 (Some {| code := Some 200; sb_message := None;
                                     task_id := Some "abc123"%string |});
  status_resp   := fun _ i => nth i answers rest;
  download_resp := fun _ => dl
|}.

Definition always (a : http (option status_body)) : env :=
  scripted [] a (Resp 200 []).

Definition rejecting (code : Z) : env := {|
  submit_resp   := Resp code None;
  status_resp   := fun _ _ => NetErr;
  download_resp := fun _ => NetErr
|}.

Definition no_error : error_obj :=
  {| message := None; err_code := None; raw_message := None; detail := None |}.

Definition answer (s : string) (err : error_obj) (url : option string)
  : http (option status_body) :=
  Resp 200 (Some {| st_code := Some 200; st_message := None; status := Some s;
                    error := err; logs := []; video_url := url |}).

(** Scenario A of the specification: "processing", then "completed";
    the download brings three bytes. *)
Definition scenario_A : env :=
  scripted [answer "processing" no_error None;
            answer "completed" no_error (Some "https://cdn/v.mp4"%string)]
           (answer "completed" no_error (Some "https://cdn/v.mp4"%string))
           (Resp 200 [Byte.x01; Byte.x02; Byte.x03]).

(** Scenario B: the first poll says "failed" and gives a reason. *)
Definition scenario_B (reason : string) : env :=
  scripted [answer "failed"
                   {| message := Some reason; err_code := Some "10000"%string;
                      raw_message := None; detail := None |} None]
           NetErr NetErr.
End PiAPI.

(** ** runway_gen2.py *)

Module Runway.

(** The answer carries the video as base64 text, under a key that may
    be absent. *)
Record body := { video : option string }.

(** [b64decode] is what [base64.b64decode] makes of a text: the bytes,
    or [None] when it raises binascii.Error. *)
Record env := {
  submit_resp : http (option body);
  b64decode   : string -> option bytes
}.

Inductive msg : Type :=
| MSending
| MSubmitFailed (code : Z)
| MGenCompleted
| MSaving (path : string)
| MDone
| MNoVideo.

Inductive exit : Type :=
| SubmitRejected (code : Z)   (* return, line 80 *)
| Saved                       (* line 93 *)
| NoVideo.                    (* line 95 *)

Section Script.
Variable e : env.
Variable output : string.

(** main, from the request (line 73) on. *)
Definition main : M msg exit :=
  print MSending >>
  let* (code, body) := request (submit_resp e) in
  if negb (code =? 200) then
    print (MSubmitFailed code) >>
    ret (SubmitRejected code)
  else
    let* response_data := json body in
    print MGenCompleted >>
    match video response_data with
    | Some text =>
        print (MSaving output) >>
        let* video_data := decoded (b64decode e text) in
        write_file output video_data >>
        print MDone >>
        ret Saved
    | None =>
        print MNoVideo >>
        ret NoVideo
    end.
End Script.

Definition rejecting (code : Z) : env :=
  {| submit_resp := Resp code None; b64decode := fun _ => None |}.
End Runway.

(** The world a script starts in: nothing slept, asked, printed or
    written. *)
Definition start {msg} : world msg := World 0 0 [] ∅.


(** ** What the MiniMax script reports at its end *)

Module Report.

(** The numbers of the "Polling attempts" lines (line 229) among printed
  lines. *)
Definition stats_of (lines : list MiniMax.msg) : list nat :=
omap (fun m => match m with MiniMax.MStats n => Some n | _ => None end) lines.

Definition is_saved (m : MiniMax.msg) : bool :=
match m with MiniMax.MSaved _ => true | _ => false end.

End Report.

(** ** More environments for the examples *)

Module Cases.

(** The MiniMax submission is answered 200, but without a task id. *)
Definition hailuo_no_task : MiniMax.env := {|
MiniMax.submit_resp   := Resp 200 (Some {| MiniMax.task_id := None |});
MiniMax.status_resp   := fun _ _ => NetErr;
MiniMax.retrieve_resp := fun _ => NetErr;
MiniMax.download_resp := fun _ => NetErr
|}.

(** The PiAPI submission is answered 200 with the code 401 in its body. *)
Definition kling_api_error : PiAPI.env := {|
PiAPI.submit_resp   :=
  Resp 200 (Some {| PiAPI.code := Some 401;
                    PiAPI.sb_message := Some "invalid api key"%string;
                    PiAPI.task_id := None |});
PiAPI.status_resp   := fun _ _ => NetErr;
PiAPI.download_resp := fun _ => NetErr
|}.

(** The video is ready at the second poll, and the download is refused
  with 404. *)
Definition hailuo_undelivered : MiniMax.env :=
MiniMax.scripted [MiniMax.answer "Processing" None "";
                  MiniMax.answer "Success" (Some "loc-1"%string) ""]
                 NetErr (Resp 404 []).

Definition kling_undelivered : PiAPI.env :=
PiAPI.scripted [PiAPI.answer "processing" PiAPI.no_error None;
                PiAPI.answer "completed" PiAPI.no_error
                             (Some "https://cdn/v.mp4"%string)]
               (PiAPI.answer "completed" PiAPI.no_error
                             (Some "https://cdn/v.mp4"%string))
               (Resp 404 []).




End Cases.

(** ** File names and start-up

    The part of each main that comes before the request, and the file
    name that the MiniMax script generates.  A string stands for the
    sequence of its characters, each a code point below 256.  The
    current time as formatted by [strftime] and the text of the UUID
    that [uuid.uuid5] gives for the prompt come from outside and are
    parameters; so are the API key found in the environment and the
    test [os.path.isfile].  Creating the output directory is left out. *)

(** [a or b] on strings that may be None. *)
Definition py_or (a b : option string) : option string :=
  if truthy a then a else b.

(** [s[:n]] *)
Fixpoint slice_to (n : nat) (s : string) : string :=
  match n, s with
  | S n', String c s' => String c (slice_to n' s')
  | _, _ => EmptyString
  end.

Definition in_range (lo hi : nat) (c : Ascii.ascii) : bool :=
  (lo <=? Ascii.nat_of_ascii c)%nat && (Ascii.nat_of_ascii c <=? hi)%nat.

(** The characters '_', '-' and '.'. *)
Definition underscore : Ascii.ascii := Ascii.ascii_of_nat 95.
Definition hyphen : Ascii.ascii := Ascii.ascii_of_nat 45.


(** The class [a-zA-Z0-9] of a regular expression. *)
Definition alnum_class (c : Ascii.ascii) : bool :=
  in_range 97 122 c || in_range 65 90 c || in_range 48 57 c.

(** [re.sub(r'[^...]', '_', s)], given the class between the brackets. *)
Fixpoint re_sub_outside (class : Ascii.ascii -> bool) (s : string) : string :=
  match s with
  | EmptyString => EmptyString
  | String c s' =>
      String (if class c then c else underscore) (re_sub_outside class s')
  end.



Module MiniMaxSetup.

Record args := {
image         : string;
prompt        : string;
output        : option string;
api_key       : option string;
model         : string;
poll_interval : Z
}.

(** Lines 36 and 38 of generate_unique_filename; main computes
  [safe_model] once more for the directory (line 146). *)
Definition safe_prompt (prompt : string) : string :=
lower (re_sub_outside alnum_class (slice_to 20 prompt)).

Definition safe_model (model : string) : string :=
lower (re_sub_outside (fun c => alnum_class c || Ascii.eqb c hyphen) model).

Definition generate_unique_filename (timestamp uuid : string)
         (prompt model ext : string) : string :=
let prompt_hash := slice_to 8 uuid in
("minimax_" ++ timestamp ++ "_" ++ safe_prompt prompt ++ "_" ++ prompt_hash
            ++ "_" ++ safe_model model ++ ext)%string.

(** Where the video goes: the path given with --output, or a generated
  name in the directory outputs/minMax/<safe_model>. *)
Inductive target : Type :=
| Given (path : string)
| Generated (dir : list string) (name : string).

Inductive startup : Type :=
| NoApiKey                               (* return, line 124 *)
| NoImage                                (* return, line 129 *)
| Ready (key : string) (to : target).    (* goes on to the request *)

(** main, lines 114-151. *)
Definition start_up (a : args) (environ_key : option string)
         (isfile : string -> bool) (timestamp uuid : string) : startup :=
let key := py_or (api_key a) environ_key in
if negb (truthy key) then NoApiKey
else if negb (isfile (image a)) then NoImage
else
  Ready (get_or key "")
        (if truthy (output a) then Given (get_or (output a) "")
         else Generated ["outputs"; "minMax"; safe_model (model a)]%string
                        (generate_unique_filename timestamp uuid
                                                  (prompt a) (model a) ".mp4")).

End MiniMaxSetup.

Module PiAPISetup.

Record args := {
image     : option string;
image_url : option string;
prompt    : string;
api_key   : option string
}.

(** The two checks at the end of parse_args (lines 42-45); [None] is
  [parser.error], which ends the process. *)
Definition parse_args (a : args) : option args :=
if negb (truthy (image a)) && negb (truthy (image_url a)) then None
else if truthy (image a) && truthy (image_url a) then None
else Some a.

(** upload_image (lines 49-58) raises NotImplementedError on every
  path; [None] is that exception. *)
Definition upload_image (image_path : string) : option string := None.

Inductive startup : Type :=
| UsageError                                      (* parser.error *)
| NoApiKey                                        (* return, line 83 *)
| NoImage                                         (* return, line 91 *)
| UploadNotImplemented                            (* return, line 99 *)
| Ready (key : string) (url : option string).     (* goes on to the request *)

(** parse_args, then main, lines 79-99. *)
Definition start_up (a : args) (environ_key : option string)
         (isfile : string -> bool) : startup :=
match parse_args a with
| None => UsageError
| Some a =>
    let key := py_or (api_key a) environ_key in
    if negb (truthy key) then NoApiKey
    else
      let url := image_url a in
      if truthy (image a) then
        if negb (isfile (get_or (image a) "")) then NoImage
        else match upload_image (get_or (image a) "") with
             | Some url => Ready (get_or key "") (Some url)
             | None => UploadNotImplemented
             end
      else Ready (get_or key "") url
end.

End PiAPISetup.

Module RunwaySetup.

Record args := {
image   : string;
prompt  : string;
output  : string;
api_key : option string
}.

Inductive startup : Type :=
| NoImage                 (* return, line 36 *)
| NoApiKey                (* return, line 45 *)
| Ready (key : string).   (* goes on to the request *)

(** main, lines 30-45. *)
Definition start_up (a : args) (environ_key : option string)
         (isfile : string -> bool) : startup :=
if negb (isfile (image a)) then NoImage
else
  let key := py_or (api_key a) environ_key in
  if negb (truthy key) then NoApiKey
  else Ready (get_or key "").

End RunwaySetup.

(** * Facts about the models *)

Ltac unfold_m :=
  cbv beta iota zeta delta
    [bind ret print sleep write_file write_file_on status_request request json
     decoded raise catch];
  cbn [now polls out disk].

Ltac same_world := cbn; rewrite <- ?app_assoc; reflexivity.

Lemma last_after {A} (pre lines : list A) x :
  last lines = Some x -> last (pre ++ lines) = Some x.
Proof. intros H. rewrite last_app, H. reflexivity. Qed.

(** [time.sleep] takes a length from 0 to [sleep_limit] and refuses
    every other one. *)
Lemma sleep_accepts {msg} secs (w : world msg) :
  0 <= secs <= sleep_limit ->
  sleep secs w = Val tt (World (now w + secs) (polls w) (out w) (disk w)).
Proof.
  intros [H0 H1]. unfold sleep.
  destruct (Z.ltb_spec secs (- sleep_limit)) as [H|_]; [unfold sleep_limit in *; lia|].
  destruct (Z.ltb_spec sleep_limit secs) as [H|_]; [lia|].
  destruct (Z.ltb_spec secs 0) as [H|_]; [lia|]. reflexivity.
Qed.

Lemma sleep_refuses {msg} secs (w : world msg) :
  ~ 0 <= secs <= sleep_limit ->
  sleep secs w =
    Exc (if (secs <? - sleep_limit) || (sleep_limit <? secs)
         then OverflowError else ValueError) w.
Proof.
  intros Hn. unfold sleep.
  destruct ((secs <? - sleep_limit) || (sleep_limit <? secs)) eqn:E; [reflexivity|].
  apply orb_false_iff in E. destruct E as [_ E]. apply Z.ltb_ge in E.
  destruct (Z.ltb_spec secs 0) as [H|H]; [reflexivity|]. lia.
Qed.

Module MiniMaxFacts.
Import MiniMax.
Section Facts.
Variable e : env.
Variable poll_interval : Z.
Variable output_path : string.

Lemma hailuo_fetch_spec file (w : world msg) :
  fetch_video_result e file output_path w =
    match fetch_of e file with
    | Stored url content =>
        Val true (World (now w) (polls w)
                        (out w ++ [MRetrieving; MDownloadUrl url; MDownloading; MDownloaded])
                        (<[output_path := content]> (disk w)))
    | Refused lines => Val false (World (now w) (polls w) (out w ++ lines) (disk w))
    | Dropped ex lines => Exc ex (World (now w) (polls w) (out w ++ lines) (disk w))
    end.
Proof.
  destruct w as [t p o d].
  unfold fetch_video_result, fetch_of. unfold_m.
  destruct (retrieve_resp e file) as [|code body]; [reflexivity|].
  destruct (negb (code =? 200)); [same_world|].
  destruct body as [b|]; [|reflexivity].
  destruct (String.eqb (get_or (download_url b) "") ""); [same_world|].
  destruct (download_resp e (get_or (download_url b) "")) as [|code' content];
    [same_world|].
  destruct (negb (code' =? 200)); same_world.
Qed.

Lemma hailuo_tick_spec task n (w : world msg) :
  tick e poll_interval output_path task n w =
    match verdict_of (status_resp e task (polls w)) with
    | Crashed ex => Exc ex (asked w [MPolling n])
    | Rejected code =>
        Val Return (asked w [MPolling n; MQueryError code; MStatus "Error"; MGenFailed])
    | Failed s => Val Return (asked w [MPolling n; MStatus s; MGenFailed])
    | Pending s =>
        (sleep poll_interval >> ret Next) (asked w [MPolling n; MStatus s])
    | Succeeded file =>
        (let* ok := fetch_video_result e file output_path in
         (if ok : bool then print (MSaved output_path) >> print (MStats n)
          else ret tt) >>
         ret Break) (asked w [MPolling n; MStatus "Success"; MGenCompleted])
    end.
Proof.
  destruct w as [t p o d].
  unfold tick, query_video_generation, verdict_of, asked. unfold_m.
  destruct (status_resp e task p) as [|code body]; [reflexivity|].
  destruct (negb (code =? 200)); [same_world|].
  destruct body as [b|]; [|reflexivity].
  destruct (String.eqb (get_or (status b) "") "Success") eqn:Hs.
  - cbn [String.eqb Ascii.eqb Bool.eqb andb truthy now polls out disk get_or].
    destruct (String.eqb (get_or (file_id b) "") ""); cbn [negb andb].
    + apply String.eqb_eq in Hs. rewrite Hs. same_world.
    + same_world.
  - cbn [andb now polls out disk]. rewrite Hs. cbn [andb].
    destruct (mem_str _ _); same_world.
Qed.

(** The new lines and the new disk of a tick that found the video
    ready, by what the fetch met. *)
Lemma hailuo_tick_succeeded task n (w : world msg) file :
  verdict_of (status_resp e task (polls w)) = Succeeded file ->
  tick e poll_interval output_path task n w =
    match fetch_of e file with
    | Stored url content =>
        Val Break
          (World (now w) (S (polls w))
             (out w ++ [MPolling n; MStatus "Success"; MGenCompleted;
                        MRetrieving; MDownloadUrl url; MDownloading; MDownloaded;
                        MSaved output_path; MStats n])
             (<[output_path := content]> (disk w)))
    | Refused lines =>
        Val Break
          (asked w ([MPolling n; MStatus "Success"; MGenCompleted] ++ lines))
    | Dropped ex lines =>
        Exc ex (asked w ([MPolling n; MStatus "Success"; MGenCompleted] ++ lines))
    end.
Proof.
  intros Hv. rewrite hailuo_tick_spec, Hv. unfold bind at 1. rewrite hailuo_fetch_spec.
  destruct (fetch_of e file); unfold asked; unfold_m; same_world.
Qed.

Lemma hailuo_tick_pending task n (w : world msg) s :
  0 <= poll_interval <= sleep_limit ->
  verdict_of (status_resp e task (polls w)) = Pending s ->
  tick e poll_interval output_path task n w =
    Val Next (World (now w + poll_interval) (S (polls w))
                    (out w ++ [MPolling n; MStatus s]) (disk w)).
Proof.
  intros Hiv Hv. rewrite hailuo_tick_spec, Hv. unfold bind.
  rewrite (sleep_accepts _ _ Hiv). reflexivity.
Qed.

Lemma hailuo_poll_pending fuel task c (w : world msg) s :
  0 <= poll_interval <= sleep_limit ->
  verdict_of (status_resp e task (polls w)) = Pending s ->
  poll e poll_interval output_path (S fuel) task c w =
    poll e poll_interval output_path fuel task (S c)
         (World (now w + poll_interval) (S (polls w))
                (out w ++ [MPolling (S c); MStatus s]) (disk w)).
Proof.
  intros Hiv Hv. cbn [poll]. unfold bind at 1.
  rewrite (hailuo_tick_pending _ _ _ s Hiv Hv). reflexivity.
Qed.

(** A tick on an answer that is not pending ends the loop, whatever
    fuel is left. *)
Lemma hailuo_poll_terminal fuel task c (w : world msg) :
  is_pending (verdict_of (status_resp e task (polls w))) = false ->
  poll e poll_interval output_path (S fuel) task c w =
    match tick e poll_interval output_path task (S c) w with
    | Val f w' => Val (Some f) w'
    | Exc ex w' => Exc ex w'
    end.
Proof.
  intros Hv. cbn [poll]. unfold bind at 1.
  destruct (verdict_of (status_resp e task (polls w))) as [file|s|code|s|ex] eqn:Hq;
    try discriminate Hv.
  - rewrite (hailuo_tick_succeeded _ _ _ file Hq).
    destruct (fetch_of e file); reflexivity.
  - rewrite hailuo_tick_spec, Hq. reflexivity.
  - rewrite hailuo_tick_spec, Hq. reflexivity.
  - rewrite hailuo_tick_spec, Hq. reflexivity.
Qed.


Lemma hailuo_fetch_of_refused file lines :
  fetch_of e file = Refused lines ->
  existsb is_gen_failed lines = false /\
  exists line, last lines = Some line /\ is_fetch_error line = true.
Proof.
  unfold fetch_of.
  destruct (retrieve_resp e file) as [|code body]; [discriminate|].
  destruct (negb (code =? 200)).
  { intros [= <-]. split; [reflexivity|]. eexists; split; reflexivity. }
  destruct body as [b|]; [|discriminate]. cbv zeta.
  destruct (String.eqb (get_or (download_url b) "") "").
  { intros [= <-]. split; [reflexivity|]. eexists; split; reflexivity. }
  destruct (download_resp e _) as [|code' content]; [discriminate|].
  destruct (negb (code' =? 200)); [|discriminate].
  intros [= <-]. split; [reflexivity|]. eexists; split; reflexivity.
Qed.

Lemma hailuo_fetch_of_dropped file ex lines :
  fetch_of e file = Dropped ex lines -> existsb is_gen_failed lines = false.
Proof.
  unfold fetch_of.
  destruct (retrieve_resp e file) as [|code body]; [intros [= <- <-]; reflexivity|].
  destruct (negb (code =? 200)); [discriminate|].
  destruct body as [b|]; [|intros [= <- <-]; reflexivity]. cbv zeta.
  destruct (String.eqb (get_or (download_url b) "") ""); [discriminate|].
  destruct (download_resp e _) as [|code' content]; [intros [= <- <-]; reflexivity|].
  destruct (negb (code' =? 200)); discriminate.
Qed.

(** Progress lines in front change nothing to how a run ended. *)
Lemma hailuo_ending_extend (w w1 : world msg) r pre lines :
  out w1 = out w ++ pre ->
  disk w1 = disk w ->
  existsb is_gen_completed pre = false ->
  existsb is_gen_failed pre = false ->
  ending output_path w1 r lines ->
  ending output_path w r (pre ++ lines).
Proof.
  intros Ho Hd Hc Hf [Hout Hend]. split.
  { rewrite Hout, Ho, app_assoc. reflexivity. }
  rewrite !existsb_app, Hc, Hf. cbn [orb]. rewrite Hd in Hend.
  destruct (value r) as [[[ | | ]|]|].
  - exact Hend.
  - destruct Hend as (? & ? & [H|(? & line & ? & ?)]); repeat split; auto.
    right. split; [assumption|]. exists line. split; [|assumption].
    apply last_after; assumption.
  - destruct Hend as (? & ? & ? & ?). repeat split; auto.
    apply last_after; assumption.
  - exact Hend.
  - exact Hend.
Qed.

Lemma hailuo_poll_ending task fuel : forall c (w : world msg),
  exists lines,
    ending output_path w (poll e poll_interval output_path fuel task c w) lines.
Proof.
  induction fuel as [|fuel IH]; intros c w.
  { exists []. split; [cbn; rewrite app_nil_r; reflexivity|].
    cbn. repeat split. }
  destruct (verdict_of (status_resp e task (polls w))) as [file|s|code|s|ex] eqn:Hq.
  - rewrite hailuo_poll_terminal by (rewrite Hq; reflexivity).
    rewrite (hailuo_tick_succeeded _ _ _ file Hq).
    destruct (fetch_of e file) as [url content|lines|ex lines] eqn:Hf.
    + eexists. split; [reflexivity|]. cbn. repeat split. left. eauto.
    + destruct (hailuo_fetch_of_refused _ _ Hf) as (Hnf & line & Hl & Hfe).
      eexists. split; [reflexivity|]. cbn [value final_world asked disk].
      rewrite !existsb_app, Hnf. repeat split. right. split; [reflexivity|].
      exists line. split; [|assumption]. apply last_after; assumption.
    + eexists. split; [reflexivity|]. cbn [value final_world asked disk].
      rewrite !existsb_app, (hailuo_fetch_of_dropped _ _ _ Hf). repeat split.
  - rewrite hailuo_poll_terminal by (rewrite Hq; reflexivity).
    rewrite hailuo_tick_spec, Hq. eexists. split; [reflexivity|]. cbn. repeat split.
  - rewrite hailuo_poll_terminal by (rewrite Hq; reflexivity).
    rewrite hailuo_tick_spec, Hq. eexists. split; [reflexivity|]. cbn. repeat split.
  - destruct (decide (0 <= poll_interval <= sleep_limit)) as [Hiv|Hno].
    2:{ cbn [poll]. unfold bind at 1. rewrite hailuo_tick_spec, Hq.
        unfold bind. rewrite (sleep_refuses _ _ Hno).
        eexists. split; [reflexivity|]. cbn. repeat split. }
    + rewrite (hailuo_poll_pending _ _ _ _ s Hiv Hq).
      destruct (IH (S c) (World (now w + poll_interval) (S (polls w))
                                (out w ++ [MPolling (S c); MStatus s]) (disk w)))
        as (lines & Hend).
      exists ([MPolling (S c); MStatus s] ++ lines).
      eapply hailuo_ending_extend; [| | | |exact Hend]; reflexivity.
  - rewrite hailuo_poll_terminal by (rewrite Hq; reflexivity).
    rewrite hailuo_tick_spec, Hq. eexists. split; [reflexivity|]. cbn. repeat split.
Qed.

(** *** main *)

Lemma hailuo_main_accepted fuel (w : world msg) task :
  accepted e = Some task ->
  main e poll_interval output_path fuel w =
    match poll e poll_interval output_path fuel task 0
               (World (now w) (polls w)
                      (out w ++ [MSubmitting; MRequestCompleted; MSubmitted task])
                      (disk w)) with
    | Val f w' => Val (exit_of f) w'
    | Exc ex w' => Exc ex w'
    end.
Proof.
  destruct w as [t p o d]. unfold accepted, main. unfold_m.
  destruct (submit_resp e) as [|code [sb|]]; try discriminate.
  destruct (code =? 200); [|discriminate]. cbn [andb negb].
  destruct (truthy (task_id sb)) eqn:Ht; [|discriminate].
  intros ->. cbn [negb get_or now polls out disk].
  rewrite <- !app_assoc. cbn [app]. reflexivity.
Qed.

(** A submission that is not accepted ends main at once: no status
    request, no sleep, nothing written. *)
Lemma hailuo_main_not_accepted fuel (w : world msg) :
  accepted e = None ->
  exists lines,
    let r := main e poll_interval output_path fuel w in
    final_world r = World (now w) (polls w) (out w ++ lines) (disk w) /\
    existsb is_gen_completed lines = false /\
    existsb is_gen_failed lines = false /\
    value r <> Some None /\
    value r <> Some (Some Finished) /\
    value r <> Some (Some GenerationFailed).
Proof.
  destruct w as [t p o d]. unfold accepted, main. unfold_m.
  destruct (submit_resp e) as [|code body].
  { intros _. exists [MSubmitting]. cbn. repeat split; discriminate. }
  destruct (code =? 200); cbn [andb negb].
  2:{ intros _. exists [MSubmitting; MSubmitFailed code]. cbn.
      rewrite <- app_assoc. repeat split; discriminate. }
  destruct body as [sb|].
  2:{ intros _. exists [MSubmitting; MRequestCompleted; MSubmitBadJson]. cbn.
      rewrite <- !app_assoc. repeat split; discriminate. }
  destruct (task_id sb) as [s|]; [destruct (truthy (Some s)); [discriminate|]|];
    cbn [truthy negb].
  2:{ intros _. exists [MSubmitting; MRequestCompleted; MNoTaskId]. cbn.
      rewrite <- !app_assoc. repeat split; discriminate. }
  intros _. exists [MSubmitting; MRequestCompleted; MNoTaskId]. cbn.
  rewrite <- !app_assoc. repeat split; discriminate.
Qed.


Lemma hailuo_fetch_of_stored file url content :
  fetch_of e file = Stored url content ->
  download_resp e url = Resp 200 content.
Proof.
  unfold fetch_of.
  destruct (retrieve_resp e file) as [|code body]; [discriminate|].
  destruct (negb (code =? 200)); [discriminate|].
  destruct body as [b|]; [|discriminate]. cbv zeta.
  destruct (String.eqb (get_or (download_url b) "") ""); [discriminate|].
  destruct (download_resp e _) as [|code' content'] eqn:Hd; [discriminate|].
  destruct (Z.eqb_spec code' 200) as [->|]; [|discriminate].
  intros [= <- <-]. exact Hd.
Qed.

(** Every tick issues exactly one status request. *)
Lemma hailuo_tick_asks task n (w : world msg) :
  polls (final_world (tick e poll_interval output_path task n w)) = S (polls w).
Proof.
  destruct (verdict_of (status_resp e task (polls w))) as [file|s|code|s|ex] eqn:Hq.
  - rewrite (hailuo_tick_succeeded _ _ _ file Hq). destruct (fetch_of e file); reflexivity.
  - rewrite hailuo_tick_spec, Hq. reflexivity.
  - rewrite hailuo_tick_spec, Hq. reflexivity.
  - rewrite hailuo_tick_spec, Hq. unfold bind.
    destruct (decide (0 <= poll_interval <= sleep_limit)) as [Hiv|Hno].
    + rewrite (sleep_accepts _ _ Hiv). reflexivity.
    + rewrite (sleep_refuses _ _ Hno). reflexivity.
  - rewrite hailuo_tick_spec, Hq. reflexivity.
Qed.

End Facts.
End MiniMaxFacts.

Module PiAPIFacts.
Import PiAPI.

Section Facts.
Variable e : env.
Variable output_path : string.

Lemma kling_tick_spec task (w : world msg) :
  tick e task w =
    match verdict_of (status_resp e task (polls w)) with
    | Crashed ex => Exc ex (slept w [MWaiting])
    | Retry line => Val Next (slept w [MWaiting; line])
    | Completed => Val Break (slept w [MWaiting; MCompleted])
    | Failed c m x d l =>
        Val Return (slept w (MWaiting :: failure_lines c m x d l))
    end.
Proof.
  destruct w as [t p o d].
  unfold tick, verdict_of, slept. unfold_m.
  change ((5 <? - sleep_limit) || (sleep_limit <? 5)) with false.
  change (5 <? 0) with false. cbv iota. cbn [now polls out disk].
  destruct (status_resp e task p) as [|code body]; [reflexivity|].
  destruct (negb (code =? 200)); [same_world|].
  destruct body as [b|]; [|reflexivity].
  destruct (negb (bool_decide (st_code b = Some 200))); [same_world|].
  destruct (_ || _); [same_world|].
  destruct (String.eqb _ "failed"); [|same_world].
  unfold failure_lines. destruct (negb (bool_decide (logs b = []))); same_world.
Qed.

Lemma kling_fetch_spec task (w : world msg) :
  fetch e output_path task w =
    match fetch_of e task (polls w) with
    | Stored url content =>
        Val Saved (World (now w) (S (polls w))
                         (out w ++ [MGenTime; MDownloadingFrom url; MSaved output_path])
                         (<[output_path := content]> (disk w)))
    | Refused x lines => Val x (asked w lines)
    | Dropped ex lines => Exc ex (asked w lines)
    end.
Proof.
  destruct w as [t p o d].
  unfold fetch, fetch_of, asked. unfold_m.
  destruct (status_resp e task p) as [|code body];
    [cbn; rewrite app_nil_r; reflexivity|].
  destruct (negb (code =? 200)); [same_world|].
  destruct body as [b|]; [|cbn; rewrite app_nil_r; reflexivity].
  destruct (negb (truthy (video_url b))); [same_world|].
  destruct (download_resp e _) as [|code' content]; [same_world|].
  destruct (negb (code' =? 200)); same_world.
Qed.

Lemma kling_poll_retry fuel task (w : world msg) line :
  verdict_of (status_resp e task (polls w)) = Retry line ->
  poll e (S fuel) task w = poll e fuel task (slept w [MWaiting; line]).
Proof.
  intros Hv. cbn [poll]. unfold bind at 1. rewrite kling_tick_spec, Hv. reflexivity.
Qed.

Lemma kling_poll_terminal fuel task (w : world msg) :
  is_retry (verdict_of (status_resp e task (polls w))) = false ->
  poll e (S fuel) task w =
    match tick e task w with
    | Val f w' => Val (Some f) w'
    | Exc ex w' => Exc ex w'
    end.
Proof.
  intros Hv. cbn [poll]. unfold bind at 1. rewrite kling_tick_spec.
  destruct (verdict_of (status_resp e task (polls w))); try discriminate Hv;
    reflexivity.
Qed.

(** [k] answers in a row that make the loop go round: [k] sleeps of
    5 s, [k] status requests, the disk untouched. *)
Lemma kling_poll_waits task k : forall (w : world msg),
  (forall i, (i < k)%nat ->
     is_retry (verdict_of (status_resp e task (polls w + i))) = true) ->
  exists lines,
    existsb is_completed lines = false /\
    existsb is_task_failed lines = false /\
    forall fuel,
      poll e (k + fuel) task w =
        poll e fuel task
             (World (now w + 5 * Z.of_nat k) (polls w + k) (out w ++ lines) (disk w)).
Proof.
  induction k as [|k IH]; intros w Hp.
  - exists []. repeat split. intros fuel. destruct w as [t p o d].
    cbn [now polls out disk Nat.add]. rewrite app_nil_r, Nat.add_0_r.
    replace (t + 5 * Z.of_nat 0) with t by lia. reflexivity.
  - assert (H0 : is_retry (verdict_of (status_resp e task (polls w))) = true).
    { specialize (Hp 0%nat). rewrite Nat.add_0_r in Hp. apply Hp. lia. }
    destruct (verdict_of (status_resp e task (polls w))) as [ | |line| ] eqn:Hq;
      try discriminate H0.
    destruct (IH (slept w [MWaiting; line])) as (lines & Hc & Hf & Hrun).
    { intros i Hi. cbn [slept polls].
      replace (S (polls w) + i)%nat with (polls w + S i)%nat by lia.
      apply Hp. lia. }
    assert (Hline : is_completed line = false /\ is_task_failed line = false).
    { unfold verdict_of in Hq.
      destruct (status_resp e task (polls w)) as [|code body]; [discriminate|].
      destruct (negb (code =? 200)); [injection Hq as <-; split; reflexivity|].
      destruct body as [b|]; [|discriminate].
      destruct (negb (bool_decide _)); [injection Hq as <-; split; reflexivity|].
      cbv zeta in Hq. destruct (_ || _); [discriminate|].
      destruct (String.eqb _ "failed"); [discriminate|].
      injection Hq as <-; split; reflexivity. }
    destruct Hline as [Hlc Hlf].
    exists ([MWaiting; line] ++ lines). split; [|split].
    { cbn. rewrite Hlc. exact Hc. }
    { cbn. rewrite Hlf. exact Hf. }
    intros fuel. cbn [Nat.add]. rewrite (kling_poll_retry _ _ _ line Hq).
    rewrite Hrun. unfold slept. cbn [now polls out disk]. f_equal. f_equal.
    + lia.
    + lia.
    + rewrite <- app_assoc. reflexivity.
Qed.

Lemma kling_retry_line_quiet a line :
  verdict_of a = Retry line ->
  is_completed line = false /\ is_task_failed line = false.
Proof.
  unfold verdict_of.
  destruct a as [|code body]; [discriminate|].
  destruct (negb (code =? 200)); [intros [= <-]; split; reflexivity|].
  destruct body as [b|]; [|discriminate].
  destruct (negb (bool_decide _)); [intros [= <-]; split; reflexivity|].
  cbv zeta. destruct (_ || _); [discriminate|].
  destruct (String.eqb _ "failed"); [discriminate|].
  intros [= <-]; split; reflexivity.
Qed.

Lemma kling_poll_ending task fuel : forall (w : world msg),
  exists lines, ending w (poll e fuel task w) lines.
Proof.
  induction fuel as [|fuel IH]; intros w.
  { exists []. split; [cbn; rewrite app_nil_r; reflexivity|]. cbn. repeat split. }
  destruct (verdict_of (status_resp e task (polls w))) as [|c m x d l|line|ex] eqn:Hq.
  - rewrite kling_poll_terminal by (rewrite Hq; reflexivity). rewrite kling_tick_spec, Hq.
    eexists. cbn. repeat split.
  - rewrite kling_poll_terminal by (rewrite Hq; reflexivity). rewrite kling_tick_spec, Hq.
    exists (MWaiting :: failure_lines c m x d l).
    split; [reflexivity|]. split; [reflexivity|].
    cbn [value]. unfold failure_lines.
    destruct (negb (bool_decide (l = []))); split; reflexivity.
  - rewrite (kling_poll_retry _ _ _ line Hq).
    destruct (IH (slept w [MWaiting; line])) as (lines & Hout & Hdisk & Hend).
    destruct (kling_retry_line_quiet _ _ Hq) as [Hlc Hlf].
    exists ([MWaiting; line] ++ lines). split; [|split].
    + rewrite Hout. cbn [slept out]. rewrite <- app_assoc. reflexivity.
    + rewrite Hdisk. reflexivity.
    + cbn [app existsb is_completed is_task_failed orb]. rewrite Hlc, Hlf.
      cbn [orb]. exact Hend.
  - rewrite kling_poll_terminal by (rewrite Hq; reflexivity). rewrite kling_tick_spec, Hq.
    eexists. cbn. repeat split.
Qed.

(** *** main *)

Lemma kling_main_body_accepted fuel (w : world msg) task :
  accepted e = Some task ->
  main_body e output_path fuel w =
    match poll e fuel task
               (World (now w) (polls w) (out w ++ [MSending; MSubmitted task])
                      (disk w)) with
    | Val None w' => Val None w'
    | Val (Some Return) w' => Val (Some TaskFailed) w'
    | Val (Some _) w' =>
        match fetch e output_path task w' with
        | Val x w'' => Val (Some x) w''
        | Exc ex w'' => Exc ex w''
        end
    | Exc ex w' => Exc ex w'
    end.
Proof.
  destruct w as [t p o d]. unfold accepted, main_body. unfold_m.
  destruct (submit_resp e) as [|code [sb|]]; try discriminate.
  destruct (code =? 200); [|discriminate]. cbn [andb negb].
  destruct (bool_decide (PiAPI.code sb = Some 200)); [|discriminate].
  cbn [andb negb].
  destruct (truthy (task_id sb)) eqn:Ht; [|discriminate].
  intros ->. cbn [negb get_or now polls out disk].
  rewrite <- !app_assoc. cbn [app].
  destruct (poll e fuel task _) as [[[ | | ]|] w'|ex w']; reflexivity.
Qed.

Lemma kling_main_not_accepted fuel (w : world msg) :
  accepted e = None ->
  exists lines,
    let r := main e output_path fuel w in
    final_world r = World (now w) (polls w) (out w ++ lines) (disk w) /\
    existsb is_completed lines = false /\
    existsb is_task_failed lines = false /\
    value r <> Some None /\
    value r <> Some (Some TaskFailed).
Proof.
  destruct w as [t p o d]. unfold accepted, main, main_body. unfold_m.
  destruct (submit_resp e) as [|code body].
  { intros _. exists [MSending; MException ConnectionError]. cbn.
    rewrite <- !app_assoc. repeat split; discriminate. }
  destruct (code =? 200); cbn [andb negb].
  2:{ intros _. exists [MSending; MApiRequestFailed code (is_some body)]. cbn.
      rewrite <- app_assoc. repeat split; discriminate. }
  destruct body as [sb|].
  2:{ intros _. exists [MSending; MException JSONDecodeError]. cbn.
      rewrite <- !app_assoc. repeat split; discriminate. }
  cbn [json]. destruct (bool_decide (PiAPI.code sb = Some 200)); cbn [andb negb].
  2:{ intros _. exists [MSending; MApiResponseError (PiAPI.code sb) (sb_message sb)].
      cbn. rewrite <- !app_assoc. repeat split; discriminate. }
  destruct (task_id sb) as [s|]; [destruct (truthy (Some s)); [discriminate|]|];
    cbn [truthy negb].
  2:{ intros _. exists [MSending; MNoTaskId]. cbn.
      rewrite <- !app_assoc. repeat split; discriminate. }
  intros _. exists [MSending; MNoTaskId]. cbn.
  rewrite <- !app_assoc. repeat split; discriminate.
Qed.

Lemma kling_main_waits task fuel :
  accepted e = Some task ->
  (forall i, (i < fuel)%nat ->
     is_retry (verdict_of (status_resp e task i)) = true) ->
  exists lines,
    main e output_path fuel start =
      Val None (World (5 * Z.of_nat fuel) fuel lines ∅).
Proof.
  intros Hacc Hp. unfold main, catch. rewrite (kling_main_body_accepted _ _ _ Hacc).
  unfold start. cbn [now polls out disk app].
  destruct (kling_poll_waits task fuel (World 0 0 [MSending; MSubmitted task] ∅))
    as (lines & _ & _ & Hrun).
  { intros i Hi. cbn. apply Hp, Hi. }
  specialize (Hrun 0%nat). rewrite Nat.add_0_r in Hrun. rewrite Hrun.
  cbn. eexists. reflexivity.
Qed.

Lemma kling_fetch_of_stored task n url content :
  fetch_of e task n = Stored url content ->
  download_resp e url = Resp 200 content.
Proof.
  unfold fetch_of.
  destruct (status_resp e task n) as [|code body]; [discriminate|].
  destruct (negb (code =? 200)); [discriminate|].
  destruct body as [b|]; [|discriminate].
  destruct (negb (truthy (video_url b))); [discriminate|]. cbv zeta.
  destruct (download_resp e _) as [|code' content'] eqn:Hd; [discriminate|].
  destruct (Z.eqb_spec code' 200) as [->|]; [|discriminate].
  intros [= <- <-]. exact Hd.
Qed.

Lemma kling_tick_asks task (w : world msg) :
  polls (final_world (tick e task w)) = S (polls w).
Proof.
  rewrite kling_tick_spec.
  destruct (verdict_of (status_resp e task (polls w))); reflexivity.
Qed.


Lemma kling_fetch_of_refused task n x lines :
  fetch_of e task n = Refused x lines ->
  existsb is_completed lines = false /\
  existsb is_task_failed lines = false /\
  is_delivery_exit x = true /\
  exists line, last lines = Some line /\ is_fetch_error line = true.
Proof.
  unfold fetch_of.
  destruct (status_resp e task n) as [|code body]; [discriminate|].
  destruct (negb (code =? 200)).
  { intros [= <- <-]. repeat split. eexists; split; reflexivity. }
  destruct body as [b|]; [|discriminate].
  destruct (negb (truthy (video_url b))).
  { intros [= <- <-]. repeat split. eexists; split; reflexivity. }
  cbv zeta. destruct (download_resp e _) as [|code' content]; [discriminate|].
  destruct (negb (code' =? 200)); [|discriminate].
  intros [= <- <-]. repeat split. eexists; split; reflexivity.
Qed.

End Facts.
End PiAPIFacts.

(** * The properties of the specification *)

(** Scenario A of the specification, run on both models: the second
    poll finds the video ready, the fetch writes it, and the MiniMax
    script reports two polling attempts. *)
Example scenario_A_hailuo :
  let r := MiniMax.main MiniMax.scenario_A 10 "out.mp4" 8 start in
  value r = Some (Some MiniMax.Finished) /\
  disk (final_world r) !! "out.mp4"%string = Some [Byte.x01; Byte.x02; Byte.x03] /\
  last (out (final_world r)) = Some (MiniMax.MStats 2) /\
  polls (final_world r) = 2%nat /\
  now (final_world r) = 10.
Proof. vm_compute. repeat split. Qed.

Example scenario_A_kling :
  let r := PiAPI.main PiAPI.scenario_A "out.mp4" 8 start in
  value r = Some (Some PiAPI.Saved) /\
  disk (final_world r) !! "out.mp4"%string = Some [Byte.x01; Byte.x02; Byte.x03] /\
  last (out (final_world r)) = Some (PiAPI.MSaved "out.mp4") /\
  polls (final_world r) = 3%nat /\
  now (final_world r) = 10.
Proof. vm_compute. repeat split. Qed.

(** The second comparison of line 205 of piapi_kling.py can never hold:
    a lower-cased string does not start with a capital. *)
Lemma lower_not_capitalised u : lower u <> "Completed"%string.
Proof.
  destruct u as [|c u]; [discriminate|]. cbn [lower]. intros [= Hc _].
  destruct c as [[] [] [] [] [] [] [] []]; vm_compute in Hc; discriminate Hc.
Qed.


(** ** Submission failures *)

(** C7: a submission that is answered with an HTTP status other than 200
    (401, 400, ...) ends main at once in all three scripts: the status
    code is reported, no status request is issued, nothing is slept and
    nothing is written. *)
Theorem submit_failure_aborts_without_polling :
  forall code (em : MiniMax.env) (ep : PiAPI.env) (er : Runway.env) bm bp br
         iv path fuel (wm : world MiniMax.msg) (wp : world PiAPI.msg)
         (wr : world Runway.msg),
    code <> 200 ->
    MiniMax.submit_resp em = Resp code bm ->
    PiAPI.submit_resp ep = Resp code bp ->
    Runway.submit_resp er = Resp code br ->
    MiniMax.main em iv path fuel wm =
      Val (Some (MiniMax.SubmitRejected code))
          (World (now wm) (polls wm)
                 (out wm ++ [MiniMax.MSubmitting; MiniMax.MSubmitFailed code])
                 (disk wm)) /\
    PiAPI.main ep path fuel wp =
      Val (Some (PiAPI.SubmitRejected code))
          (World (now wp) (polls wp)
                 (out wp ++ [PiAPI.MSending;
                             PiAPI.MApiRequestFailed code (PiAPI.is_some bp)])
                 (disk wp)) /\
    Runway.main er path wr =
      Val (Runway.SubmitRejected code)
          (World (now wr) (polls wr)
                 (out wr ++ [Runway.MSending; Runway.MSubmitFailed code])
                 (disk wr)).
Proof.
  intros code em ep er bm bp br iv path fuel wm wp wr Hc Hm Hp Hr.
  apply Z.eqb_neq in Hc.
  destruct wm as [tm pm om dm], wp as [tp pp op dp], wr as [tr pr or dr].
  repeat split.
  - unfold MiniMax.main. unfold_m. rewrite Hm, Hc. same_world.
  - unfold PiAPI.main, PiAPI.main_body. unfold_m. rewrite Hp, Hc. same_world.
  - unfold Runway.main. unfold_m. rewrite Hr, Hc. same_world.
Qed.

(** Scenario D of the specification: the submission is answered 401. *)
Lemma submit_failure_aborts_without_polling_witness :
  401 <> 200 /\
  value (MiniMax.main (MiniMax.rejecting 401) 10 "out.mp4" 7 start)
    = Some (Some (MiniMax.SubmitRejected 401)) /\
  polls (final_world (MiniMax.main (MiniMax.rejecting 401) 10 "out.mp4" 7 start)) = 0%nat /\
  polls (final_world (PiAPI.main (PiAPI.rejecting 401) "out.mp4" 7 start)) = 0%nat /\
  polls (final_world (Runway.main (Runway.rejecting 401) "out.mp4" start)) = 0%nat.
Proof.
  assert (H : 401 <> 200) by lia.
  destruct (submit_failure_aborts_without_polling
              401 (MiniMax.rejecting 401) (PiAPI.rejecting 401) (Runway.rejecting 401)
              None None None 10 "out.mp4" 7%nat start start start
              H eq_refl eq_refl eq_refl) as (Hm & Hp & Hr).
  rewrite Hm, Hp, Hr. repeat split. exact H.
Defined.

(** ** Writing the output file *)

(** On a disk that takes the write, the fetch with a fate is the fetch
    that main runs. *)
Lemma fetch_on_done_hailuo (e : MiniMax.env) file path :
  MiniMax.fetch_video_result_on e WriteDone file path =
  MiniMax.fetch_video_result e file path.
Proof. reflexivity. Qed.

Lemma fetch_on_done_kling (e : PiAPI.env) path task :
  PiAPI.fetch_on e path WriteDone task = PiAPI.fetch e path task.
Proof. reflexivity. Qed.

(** The fetch of the MiniMax script, by what the provider answers and
    what the disk does. *)
Lemma fetch_on_spec_hailuo (e : MiniMax.env) fate file path
      (w : world MiniMax.msg) :
  MiniMax.fetch_video_result_on e fate file path w =
    match MiniMax.fetch_of e file with
    | MiniMax.Stored url content =>
        let lines := [MiniMax.MRetrieving; MiniMax.MDownloadUrl url;
                      MiniMax.MDownloading] in
        match fate with
        | WriteDone =>
            Val true (World (now w) (polls w)
                            (out w ++ lines ++ [MiniMax.MDownloaded])
                            (<[path := content]> (disk w)))
        | OpenFails =>
            Exc OSError (World (now w) (polls w) (out w ++ lines) (disk w))
        | WriteFails written =>
            Exc OSError (World (now w) (polls w) (out w ++ lines)
                               (<[path := take written content]> (disk w)))
        end
    | MiniMax.Refused lines =>
        Val false (World (now w) (polls w) (out w ++ lines) (disk w))
    | MiniMax.Dropped ex lines =>
        Exc ex (World (now w) (polls w) (out w ++ lines) (disk w))
    end.
Proof.
  destruct w as [t p o d].
  unfold MiniMax.fetch_video_result_on, MiniMax.fetch_of. unfold_m.
  destruct (MiniMax.retrieve_resp e file) as [|code body]; [reflexivity|].
  destruct (negb (code =? 200)); [same_world|].
  destruct body as [b|]; [|reflexivity].
  destruct (String.eqb (get_or (MiniMax.download_url b) "") ""); [same_world|].
  destruct (MiniMax.download_resp e (get_or (MiniMax.download_url b) ""))
    as [|code' content]; [same_world|].
  destruct (negb (code' =? 200)); [same_world|].
  destruct fate; same_world.
Qed.

Lemma fetch_on_spec_kling (e : PiAPI.env) fate path task (w : world PiAPI.msg) :
  PiAPI.fetch_on e path fate task w =
    match PiAPI.fetch_of e task (polls w) with
    | PiAPI.Stored url content =>
        let lines := [PiAPI.MGenTime; PiAPI.MDownloadingFrom url] in
        match fate with
        | WriteDone =>
            Val PiAPI.Saved
                (World (now w) (S (polls w)) (out w ++ lines ++ [PiAPI.MSaved path])
                       (<[path := content]> (disk w)))
        | OpenFails =>
            Exc OSError (World (now w) (S (polls w)) (out w ++ lines) (disk w))
        | WriteFails written =>
            Exc OSError (World (now w) (S (polls w)) (out w ++ lines)
                               (<[path := take written content]> (disk w)))
        end
    | PiAPI.Refused x lines => Val x (PiAPI.asked w lines)
    | PiAPI.Dropped ex lines => Exc ex (PiAPI.asked w lines)
    end.
Proof.
  destruct w as [t p o d].
  unfold PiAPI.fetch_on, PiAPI.fetch_of, PiAPI.asked. unfold_m.
  destruct (PiAPI.status_resp e task p) as [|code body];
    [cbn; rewrite app_nil_r; reflexivity|].
  destruct (negb (code =? 200)); [same_world|].
  destruct body as [b|]; [|cbn; rewrite app_nil_r; reflexivity].
  destruct (negb (truthy (PiAPI.video_url b))); [same_world|].
  destruct (PiAPI.download_resp e _) as [|code' content]; [same_world|].
  destruct (negb (code' =? 200)); [same_world|].
  destruct fate; same_world.
Qed.

Lemma fetch_of_dropped_not_oserror_hailuo (e : MiniMax.env) file ex lines :
  MiniMax.fetch_of e file = MiniMax.Dropped ex lines -> ex <> OSError.
Proof.
  unfold MiniMax.fetch_of.
  destruct (MiniMax.retrieve_resp e file) as [|code body];
    [intros [= <- _]; discriminate|].
  destruct (negb (code =? 200)); [discriminate|].
  destruct body as [b|]; [|intros [= <- _]; discriminate]. cbv zeta.
  destruct (String.eqb _ ""); [discriminate|].
  destruct (MiniMax.download_resp e _) as [|code' content];
    [intros [= <- _]; discriminate|].
  destruct (negb (code' =? 200)); discriminate.
Qed.

Lemma fetch_of_dropped_not_oserror_kling (e : PiAPI.env) task n ex lines :
  PiAPI.fetch_of e task n = PiAPI.Dropped ex lines -> ex <> OSError.
Proof.
  unfold PiAPI.fetch_of.
  destruct (PiAPI.status_resp e task n) as [|code body];
    [intros [= <- _]; discriminate|].
  destruct (negb (code =? 200)); [discriminate|].
  destruct body as [b|]; [|intros [= <- _]; discriminate].
  destruct (negb (truthy (PiAPI.video_url b))); [discriminate|]. cbv zeta.
  destruct (PiAPI.download_resp e _) as [|code' content];
    [intros [= <- _]; discriminate|].
  destruct (negb (code' =? 200)); discriminate.
Qed.

(** C4, refuted as stated: in scenario A the download brings three
    bytes; when the write raises after the first one, the fetch of the
    MiniMax script ends by that exception and leaves the output file
    with one byte: a partially written file. *)
Lemma failed_write_leaves_partial_file :
  let r := MiniMax.fetch_video_result_on MiniMax.scenario_A (WriteFails 1)
                                         "loc-1" "out.mp4" start in
  value r = None /\
  MiniMax.download_resp MiniMax.scenario_A "https://cdn/v.mp4"
    = Resp 200 [Byte.x01; Byte.x02; Byte.x03] /\
  disk (final_world r) !! "out.mp4"%string = Some [Byte.x01].
Proof. vm_compute. repeat split. Qed.

(** C4, amended: a fetch that fails before the write (the locator is
    not resolved, the download is refused, the connection drops or the
    body is not JSON) leaves the disk as it was, because the output
    file is opened only after the whole body has arrived with status
    200.  The write itself is not all-or-nothing: it is reached only
    with such a body, and when [open] or [f.write] raises, the fetch
    ends by that OSError and the file is left as the write left it,
    absent or unchanged when [open] raised and holding the bytes
    written so far otherwise.  A fetch that succeeds has written the
    whole body. *)
Theorem fetch_leaves_disk_unless_write_fails :
  forall (em : MiniMax.env) (ep : PiAPI.env) fate file task path
         (wm : world MiniMax.msg) (wp : world PiAPI.msg),
    match MiniMax.fetch_video_result_on em fate file path wm with
    | Val true w' =>
        fate = WriteDone /\
        exists url content,
          MiniMax.download_resp em url = Resp 200 content /\
          disk w' = <[path := content]> (disk wm)
    | Val false w' => disk w' = disk wm
    | Exc ex w' =>
        (ex <> OSError -> disk w' = disk wm) /\
        (ex = OSError ->
         exists url content,
           MiniMax.download_resp em url = Resp 200 content /\
           match fate with
           | WriteDone => False
           | OpenFails => disk w' = disk wm
           | WriteFails written =>
               disk w' = <[path := take written content]> (disk wm)
           end)
    end /\
    match PiAPI.fetch_on ep path fate task wp with
    | Val PiAPI.Saved w' =>
        fate = WriteDone /\
        exists url content,
          PiAPI.download_resp ep url = Resp 200 content /\
          disk w' = <[path := content]> (disk wp)
    | Val _ w' => disk w' = disk wp
    | Exc ex w' =>
        (ex <> OSError -> disk w' = disk wp) /\
        (ex = OSError ->
         exists url content,
           PiAPI.download_resp ep url = Resp 200 content /\
           match fate with
           | WriteDone => False
           | OpenFails => disk w' = disk wp
           | WriteFails written =>
               disk w' = <[path := take written content]> (disk wp)
           end)
    end.
Proof.
  intros em ep fate file task path wm wp. split.
  - rewrite fetch_on_spec_hailuo.
    destruct (MiniMax.fetch_of em file) as [url content|lines|ex lines] eqn:Hf.
    + pose proof (MiniMaxFacts.hailuo_fetch_of_stored _ _ _ _ Hf) as Hd.
      cbv zeta. destruct fate as [ | |written].
      * split; [reflexivity|]. exists url, content. split; [exact Hd|reflexivity].
      * split; [intros H; contradiction|]. intros _.
        exists url, content. split; [exact Hd|reflexivity].
      * split; [intros H; contradiction|]. intros _.
        exists url, content. split; [exact Hd|reflexivity].
    + reflexivity.
    + split; [reflexivity|]. intros ->.
      contradiction (fetch_of_dropped_not_oserror_hailuo _ _ _ _ Hf eq_refl).
  - rewrite fetch_on_spec_kling.
    destruct (PiAPI.fetch_of ep task (polls wp)) as [url content|x lines|ex lines] eqn:Hf.
    + pose proof (PiAPIFacts.kling_fetch_of_stored _ _ _ _ _ Hf) as Hd.
      cbv zeta. destruct fate as [ | |written].
      * split; [reflexivity|]. exists url, content. split; [exact Hd|reflexivity].
      * split; [intros H; contradiction|]. intros _.
        exists url, content. split; [exact Hd|reflexivity].
      * split; [intros H; contradiction|]. intros _.
        exists url, content. split; [exact Hd|reflexivity].
    + destruct (PiAPIFacts.kling_fetch_of_refused _ _ _ _ _ Hf) as (_ & _ & Hx & _).
      destruct x; try discriminate Hx; reflexivity.
    + split; [reflexivity|]. intros ->.
      contradiction (fetch_of_dropped_not_oserror_kling _ _ _ _ _ Hf eq_refl).
Qed.

(** The download is refused with 404 while the disk would fail the
    write: neither script touches the disk. *)
Lemma fetch_leaves_disk_unless_write_fails_witness :
  disk (final_world
          (MiniMax.fetch_video_result_on Cases.hailuo_undelivered (WriteFails 1)
                                         "loc-1" "out.mp4" start)) = ∅ /\
  disk (final_world
          (PiAPI.fetch_on Cases.kling_undelivered "out.mp4" (WriteFails 1)
                          "abc123" (World 0 2 [] ∅))) = ∅.
Proof.
  destruct (fetch_leaves_disk_unless_write_fails
              Cases.hailuo_undelivered Cases.kling_undelivered (WriteFails 1)
              "loc-1" "abc123" "out.mp4" start (World 0 2 [] ∅)) as [Hm Hp].
  split.
  - revert Hm.
    destruct (MiniMax.fetch_video_result_on Cases.hailuo_undelivered (WriteFails 1)
                                            "loc-1" "out.mp4" start)
      as [[|] w'|ex w'] eqn:E; try (vm_compute in E; discriminate E).
    intros Hm. exact Hm.
  - revert Hp.
    destruct (PiAPI.fetch_on Cases.kling_undelivered "out.mp4" (WriteFails 1)
                             "abc123" (World 0 2 [] ∅))
      as [x w'|ex w'] eqn:E; try (vm_compute in E; discriminate E).
    destruct x; try (vm_compute in E; discriminate E).
    intros Hp. exact Hp.
Defined.

(** ** Reading the raw status *)






(** ** Locator and error detail *)










(** ** How long the loops run *)




(** ** Status requests that are not answered 200 *)

(** C2, refuted as stated: when every status request of the PiAPI
    script is answered 500, no bound holds for the number of requests
    the run issues: after [fuel] ticks it has issued [fuel] of them and
    is still in the loop. *)
Lemma unanswered_status_retried_without_bound :
  ~ exists bound : nat,
      forall fuel,
        (polls (final_world
                  (PiAPI.main (PiAPI.always (Resp 500 None)) "out.mp4" fuel start))
         <= bound)%nat.
Proof.
  intros [bound Hb]. specialize (Hb (S bound)).
  destruct (PiAPIFacts.kling_main_waits (PiAPI.always (Resp 500 None)) "out.mp4"
                                  "abc123" (S bound) eq_refl) as (lines & E).
  { intros i _. cbn. destruct i; reflexivity. }
  rewrite E in Hb. cbn [final_world polls] in Hb. lia.
Qed.

(** C2, amended: the MiniMax script does not retry a status request
    that is not answered 200: the tick reports the status "Error" and
    ends main as a failed generation.  The PiAPI script asks again on
    the next tick, after its 5 s sleep, without any bound and without
    ever giving up: while no status request is answered 200 the run
    stays in the loop, each tick adding one request and 5 s. *)
Theorem status_request_not_answered :
  forall (em : MiniMax.env) (ep : PiAPI.env) iv path tm tp n
         (wm : world MiniMax.msg) code body fuel,
    code <> 200 ->
    MiniMax.status_resp em tm (polls wm) = Resp code body ->
    PiAPI.accepted ep = Some tp ->
    (forall i, exists c b, PiAPI.status_resp ep tp i = Resp c b /\ c <> 200) ->
    MiniMax.tick em iv path tm n wm =
      Val Return (MiniMax.asked wm [MiniMax.MPolling n; MiniMax.MQueryError code;
                                    MiniMax.MStatus "Error"; MiniMax.MGenFailed]) /\
    let r := PiAPI.main ep path fuel start in
    value r = Some None /\
    polls (final_world r) = fuel /\
    now (final_world r) = 5 * Z.of_nat fuel /\
    disk (final_world r) = ∅.
Proof.
  intros em ep iv path tm tp n wm code body fuel Hc Hm Hp Hall.
  split.
  - rewrite MiniMaxFacts.hailuo_tick_spec, Hm. unfold MiniMax.verdict_of.
    apply Z.eqb_neq in Hc. rewrite Hc. reflexivity.
  - destruct (PiAPIFacts.kling_main_waits ep path tp fuel Hp) as (lines & E).
    { intros i _. destruct (Hall i) as (c & b & -> & Hne).
      unfold PiAPI.verdict_of. apply Z.eqb_neq in Hne. rewrite Hne. reflexivity. }
    cbv zeta. rewrite E. repeat split.
Qed.

Lemma status_request_not_answered_witness :
  503 <> 200 /\
  value (MiniMax.tick (MiniMax.always (Resp 503 None)) 10 "out.mp4" "abc123" 1 start)
    = Some Return /\
  value (PiAPI.main (PiAPI.always (Resp 503 None)) "out.mp4" 25 start) = Some None /\
  polls (final_world (PiAPI.main (PiAPI.always (Resp 503 None)) "out.mp4" 25 start))
    = 25%nat.
Proof.
  assert (H : 503 <> 200) by lia.
  split; [exact H|].
  assert (Hall : forall i, exists c b,
             PiAPI.status_resp (PiAPI.always (Resp 503 None)) "abc123" i = Resp c b /\
             c <> 200).
  { intros i. exists 503, None. split; [cbn; destruct i; reflexivity|exact H]. }
  destruct (status_request_not_answered
              (MiniMax.always (Resp 503 None)) (PiAPI.always (Resp 503 None))
              10 "out.mp4" "abc123" "abc123" 1%nat start 503 None 25%nat
              H eq_refl eq_refl Hall) as (Hm & Hv & Hp & _).
  rewrite Hm. split; [reflexivity|]. split; [exact Hv|exact Hp].
Defined.

(** ** Counting the status requests *)




(** ** Failures that the provider reports *)




(** ** Failures of the delivery *)




(** * Further properties of the scripts *)

(** ** Submissions that yield no task id *)

(** X1: when the submission is not answered 200, or its body is not
    JSON, or it is a JSON object without a non-empty task id (for
    PiAPI also: with a code other than 200), main never enters its
    loop: it issues no status request, sleeps not at all, leaves the
    disk as it was, and its run does not depend on the number of
    iterations allowed. *)
Theorem no_polling_without_task_id :
  forall (em : MiniMax.env) (ep : PiAPI.env) iv path fuel
         (wm : world MiniMax.msg) (wp : world PiAPI.msg),
    MiniMax.accepted em = None ->
    PiAPI.accepted ep = None ->
    let rm := MiniMax.main em iv path fuel wm in
    let rp := PiAPI.main ep path fuel wp in
    (polls (final_world rm) = polls wm /\
     now (final_world rm) = now wm /\
     disk (final_world rm) = disk wm /\
     value rm <> Some None /\
     rm = MiniMax.main em iv path 0 wm) /\
    (polls (final_world rp) = polls wp /\
     now (final_world rp) = now wp /\
     disk (final_world rp) = disk wp /\
     value rp <> Some None /\
     rp = PiAPI.main ep path 0 wp).
Proof.
  intros em ep iv path fuel wm wp Hm Hp rm rp. split.
  - subst rm. destruct wm as [t p o d]. unfold MiniMax.accepted in Hm.
    unfold MiniMax.main. unfold_m.
    destruct (MiniMax.submit_resp em) as [|code body].
    { cbn. repeat split. discriminate. }
    destruct (Z.eqb_spec code 200) as [->|Hne]; cbn [andb negb] in *.
    2:{ cbn. repeat split. discriminate. }
    destruct body as [sb|].
    2:{ cbn. repeat split. discriminate. }
    destruct (MiniMax.task_id sb) as [s|]; cbn [truthy negb] in *.
    + destruct (negb (String.eqb s "")); [discriminate Hm|].
      cbn. repeat split. discriminate.
    + cbn. repeat split. discriminate.
  - subst rp. destruct wp as [t p o d]. unfold PiAPI.accepted in Hp.
    unfold PiAPI.main, PiAPI.main_body. unfold_m.
    destruct (PiAPI.submit_resp ep) as [|code body].
    { cbn. repeat split. discriminate. }
    destruct (Z.eqb_spec code 200) as [->|Hne]; cbn [andb negb] in *.
    2:{ cbn. repeat split. discriminate. }
    destruct body as [sb|].
    2:{ cbn. repeat split. discriminate. }
    cbn [json]. destruct (bool_decide (PiAPI.code sb = Some 200)); cbn [andb negb] in *.
    2:{ cbn. repeat split. discriminate. }
    destruct (PiAPI.task_id sb) as [s|]; cbn [truthy negb] in *.
    + destruct (negb (String.eqb s "")); [discriminate Hp|].
      cbn. repeat split. discriminate.
    + cbn. repeat split. discriminate.
Qed.

Lemma no_polling_without_task_id_witness :
  value (MiniMax.main Cases.hailuo_no_task 10 "out.mp4" 5 start)
    = Some (Some MiniMax.NoTaskId) /\
  value (PiAPI.main Cases.kling_api_error "out.mp4" 5 start)
    = Some (Some PiAPI.SubmitApiError) /\
  polls (final_world (MiniMax.main Cases.hailuo_no_task 10 "out.mp4" 5 start)) = 0%nat /\
  polls (final_world (PiAPI.main Cases.kling_api_error "out.mp4" 5 start)) = 0%nat.
Proof.
  destruct (no_polling_without_task_id
              Cases.hailuo_no_task Cases.kling_api_error 10 "out.mp4" 5%nat
              start start eq_refl eq_refl) as ((Pm & _) & (Pp & _)).
  split; [reflexivity|]. split; [reflexivity|]. split; [exact Pm|exact Pp].
Defined.

(** ** What a run of the MiniMax script leaves behind *)

Module ReportFacts.
Import MiniMax Report.

Section Facts.
Variable e : env.
Variable poll_interval : Z.
Variable output_path : string.

(** A run of the loop either leaves the disk alone and prints neither
  the saved line nor the statistics, or it ends by [break] with the
  whole body of a download answered 200 under the output path, the
  saved line, and one statistics line whose number counts the ticks. *)
Lemma report_poll_saved task fuel : forall c (w : world msg),
let r := poll e poll_interval output_path fuel task c w in
exists lines,
  out (final_world r) = out w ++ lines /\
  ((disk (final_world r) = disk w /\
    stats_of lines = [] /\
    existsb is_saved lines = false) \/
   (exists url content n,
       download_resp e url = Resp 200 content /\
       disk (final_world r) = <[output_path := content]> (disk w) /\
       value r = Some (Some Break) /\
       existsb is_saved lines = true /\
       stats_of lines = [n] /\
       (n + polls w = c + polls (final_world r))%nat)).
Proof.
induction fuel as [|fuel IH]; intros c w; cbv zeta.
{ exists []. split; [cbn; rewrite app_nil_r; reflexivity|].
  left. repeat split. }
destruct (verdict_of (status_resp e task (polls w))) as [file|s|code|s|ex] eqn:Hq.
- rewrite MiniMaxFacts.hailuo_poll_terminal by (rewrite Hq; reflexivity).
  rewrite (MiniMaxFacts.hailuo_tick_succeeded _ _ _ _ _ _ file Hq).
  destruct (fetch_of e file) as [url content|lines|ex lines] eqn:Hf.
  + eexists. split; [reflexivity|]. right.
    exists url, content, (S c). cbn.
    split; [exact (MiniMaxFacts.hailuo_fetch_of_stored _ _ _ _ Hf)|].
    repeat split. lia.
  + eexists. split; [reflexivity|]. left. cbn [final_world asked disk].
    split; [reflexivity|].
    unfold fetch_of in Hf.
    destruct (retrieve_resp e file) as [|code body]; [discriminate|].
    destruct (negb (code =? 200)); [injection Hf as <-; split; reflexivity|].
    destruct body as [b|]; [|discriminate]. cbv zeta in Hf.
    destruct (String.eqb _ ""); [injection Hf as <-; split; reflexivity|].
    destruct (download_resp e _) as [|code' content]; [discriminate|].
    destruct (negb (code' =? 200)); [injection Hf as <-; split; reflexivity|discriminate].
  + eexists. split; [reflexivity|]. left. cbn [final_world asked disk].
    split; [reflexivity|].
    unfold fetch_of in Hf.
    destruct (retrieve_resp e file) as [|code body];
      [injection Hf as <- <-; split; reflexivity|].
    destruct (negb (code =? 200)); [discriminate|].
    destruct body as [b|]; [|injection Hf as <- <-; split; reflexivity].
    cbv zeta in Hf.
    destruct (String.eqb _ ""); [discriminate|].
    destruct (download_resp e _) as [|code' content];
      [injection Hf as <- <-; split; reflexivity|].
    destruct (negb (code' =? 200)); discriminate.
- rewrite MiniMaxFacts.hailuo_poll_terminal by (rewrite Hq; reflexivity).
  rewrite MiniMaxFacts.hailuo_tick_spec, Hq.
  eexists. split; [reflexivity|]. left. repeat split.
- rewrite MiniMaxFacts.hailuo_poll_terminal by (rewrite Hq; reflexivity).
  rewrite MiniMaxFacts.hailuo_tick_spec, Hq.
  eexists. split; [reflexivity|]. left. repeat split.
- destruct (decide (0 <= poll_interval <= sleep_limit)) as [Hiv|Hno].
  2:{ assert (E : exists ex,
                poll e poll_interval output_path (S fuel) task c w =
                Exc ex (asked w [MPolling (S c); MStatus s])).
      { cbn [poll]. unfold bind at 1. rewrite MiniMaxFacts.hailuo_tick_spec, Hq.
        unfold bind. rewrite (sleep_refuses _ _ Hno). eexists. reflexivity. }
      destruct E as (ex & E). rewrite E.
      exists [MPolling (S c); MStatus s]. split; [reflexivity|]. left. repeat split. }
  + rewrite (MiniMaxFacts.hailuo_poll_pending _ _ _ _ _ _ _ s Hiv Hq).
    destruct (IH (S c) (World (now w + poll_interval) (S (polls w))
                              (out w ++ [MPolling (S c); MStatus s]) (disk w)))
      as (lines & Hout & Hcase).
    exists ([MPolling (S c); MStatus s] ++ lines). split.
    { rewrite Hout. cbn [out]. rewrite <- app_assoc. reflexivity. }
    cbn [disk polls] in Hcase.
    destruct Hcase as [(Hd & Hs & Hv)|(url & content & n & Hdl & Hd & Hval & Hv & Hs & Hn)].
    * left. split; [exact Hd|]. split; [exact Hs|exact Hv].
    * right. exists url, content, n. split; [exact Hdl|]. split; [exact Hd|].
      split; [exact Hval|]. split; [exact Hv|]. split; [exact Hs|]. lia.
- rewrite MiniMaxFacts.hailuo_poll_terminal by (rewrite Hq; reflexivity).
  rewrite MiniMaxFacts.hailuo_tick_spec, Hq.
  eexists. split; [reflexivity|]. left. repeat split.
Qed.

Lemma report_not_accepted fuel (w : world msg) :
accepted e = None ->
exists lines,
  final_world (main e poll_interval output_path fuel w) =
    World (now w) (polls w) (out w ++ lines) (disk w) /\
  stats_of lines = [] /\
  existsb is_saved lines = false /\
  value (main e poll_interval output_path fuel w) <> Some (Some Finished).
Proof.
destruct w as [t p o d]. unfold accepted, main. unfold_m.
destruct (submit_resp e) as [|code body].
{ intros _. exists [MSubmitting]. cbn. repeat split. discriminate. }
destruct (code =? 200); cbn [andb negb].
2:{ intros _. exists [MSubmitting; MSubmitFailed code]. cbn.
    rewrite <- app_assoc. repeat split. discriminate. }
destruct body as [sb|].
2:{ intros _. exists [MSubmitting; MRequestCompleted; MSubmitBadJson]. cbn.
    rewrite <- !app_assoc. repeat split. discriminate. }
destruct (task_id sb) as [s|]; [destruct (truthy (Some s)); [discriminate|]|];
  cbn [truthy negb];
  intros _; exists [MSubmitting; MRequestCompleted; MNoTaskId]; cbn;
  rewrite <- !app_assoc; repeat split; discriminate.
Qed.
End Facts.
End ReportFacts.

(** X2: whatever the provider answers and whatever the disk holds at the
    start, a run of any of the three scripts leaves every file other
    than its output path as it was. *)
Theorem only_output_path_written :
  forall (em : MiniMax.env) (ep : PiAPI.env) (er : Runway.env) iv path fuel
         (wm : world MiniMax.msg) (wp : world PiAPI.msg) (wr : world Runway.msg)
         (p : string),
    p <> path ->
    disk (final_world (MiniMax.main em iv path fuel wm)) !! p = disk wm !! p /\
    disk (final_world (PiAPI.main ep path fuel wp)) !! p = disk wp !! p /\
    disk (final_world (Runway.main er path wr)) !! p = disk wr !! p.
Proof.
  intros em ep er iv path fuel wm wp wr p Hp. split; [|split].
  - destruct (MiniMax.accepted em) as [task|] eqn:Hacc.
    + rewrite (MiniMaxFacts.hailuo_main_accepted _ _ _ _ _ _ Hacc).
      destruct (ReportFacts.report_poll_saved em iv path task fuel 0
                  (World (now wm) (polls wm)
                         (out wm ++ [MiniMax.MSubmitting; MiniMax.MRequestCompleted;
                                     MiniMax.MSubmitted task]) (disk wm)))
        as (lines & _ & Hcase).
      cbv zeta in Hcase.
      destruct (MiniMax.poll em iv path fuel task 0 _) as [f w'|ex w'];
        cbn [final_world disk] in *;
        destruct Hcase as [(Hd & _)|(url & content & n & _ & Hd & _)]; rewrite Hd;
        try reflexivity; apply lookup_insert_ne; congruence.
    + destruct (ReportFacts.report_not_accepted em iv path fuel wm Hacc)
        as (lines & Hw & _).
      rewrite Hw. reflexivity.
  - destruct (PiAPI.accepted ep) as [task|] eqn:Hacc.
    + unfold PiAPI.main, catch.
      rewrite (PiAPIFacts.kling_main_body_accepted _ _ _ _ _ Hacc).
      destruct (PiAPIFacts.kling_poll_ending ep task fuel
                  (World (now wp) (polls wp)
                         (out wp ++ [PiAPI.MSending; PiAPI.MSubmitted task]) (disk wp)))
        as (lines & _ & Hdisk & Hend).
      destruct (PiAPI.poll ep fuel task _) as [f w'|ex w'];
        cbn [value final_world disk] in Hdisk, Hend.
      * destruct f as [[ | | ]|]; [destruct Hend| | |];
          try (cbn [final_world]; rewrite Hdisk; reflexivity).
        rewrite PiAPIFacts.kling_fetch_spec.
        destruct (PiAPI.fetch_of ep task (polls w')); unfold_m;
          cbn [final_world disk PiAPI.asked]; rewrite Hdisk; try reflexivity.
        apply lookup_insert_ne; congruence.
      * unfold_m. cbn [final_world disk]. rewrite Hdisk. reflexivity.
    + destruct (PiAPIFacts.kling_main_not_accepted ep path fuel wp Hacc)
        as (lines & Hw & _).
      cbv zeta in Hw. rewrite Hw. reflexivity.
  - destruct wr as [t q o d]. unfold Runway.main. unfold_m.
    destruct (Runway.submit_resp er) as [|code body]; [reflexivity|].
    destruct (negb (code =? 200)); [reflexivity|].
    destruct body as [b|]; [|reflexivity]. cbn [json].
    destruct (Runway.video b) as [text|]; [|reflexivity].
    destruct (Runway.b64decode er text); cbn; [|reflexivity].
    apply lookup_insert_ne; congruence.
Qed.

Lemma only_output_path_written_witness :
  ("notes.txt" <> "out.mp4")%string /\
  disk (final_world
          (MiniMax.main MiniMax.scenario_A 10 "out.mp4" 8
             (World 0 0 [] {[ "notes.txt"%string := [Byte.x2a] ]})))
    !! "notes.txt"%string = Some [Byte.x2a] /\
  disk (final_world
          (PiAPI.main PiAPI.scenario_A "out.mp4" 8
             (World 0 0 [] {[ "notes.txt"%string := [Byte.x2a] ]})))
    !! "notes.txt"%string = Some [Byte.x2a].
Proof.
  assert (H : ("notes.txt" <> "out.mp4")%string) by discriminate.
  split; [exact H|].
  destruct (only_output_path_written
              MiniMax.scenario_A PiAPI.scenario_A (Runway.rejecting 500)
              10 "out.mp4" 8%nat
              (World 0 0 [] {[ "notes.txt"%string := [Byte.x2a] ]})
              (World 0 0 [] {[ "notes.txt"%string := [Byte.x2a] ]})
              start "notes.txt"%string H) as (Hm & Hp & _).
  rewrite Hm, Hp. split; reflexivity.
Defined.

(** X3: after a run of the MiniMax script from an empty disk, the output
    file exists exactly when the run printed its saved line.  It then
    holds the whole body of a download answered 200, main has left the
    loop by [break], and the number of polling attempts printed in the
    statistics is the number of status requests that the run issued.
    A run that saves nothing prints no statistics. *)
Theorem saved_file_is_reported :
  forall (e : MiniMax.env) iv path fuel,
    let r := MiniMax.main e iv path fuel start in
    match disk (final_world r) !! path with
    | Some content =>
        (exists url, MiniMax.download_resp e url = Resp 200 content) /\
        value r = Some (Some MiniMax.Finished) /\
        existsb Report.is_saved (out (final_world r)) = true /\
        Report.stats_of (out (final_world r)) = [polls (final_world r)]
    | None =>
        existsb Report.is_saved (out (final_world r)) = false /\
        Report.stats_of (out (final_world r)) = []
    end.
Proof.
  intros e iv path fuel r. subst r.
  destruct (MiniMax.accepted e) as [task|] eqn:Hacc.
  - rewrite (MiniMaxFacts.hailuo_main_accepted _ _ _ _ _ _ Hacc).
    unfold start. cbn [now polls out disk app].
    destruct (ReportFacts.report_poll_saved e iv path task fuel 0
                (World 0 0 [MiniMax.MSubmitting; MiniMax.MRequestCompleted;
                            MiniMax.MSubmitted task] ∅))
      as (lines & Hout & Hcase).
    cbv zeta in Hout, Hcase.
    destruct (MiniMax.poll e iv path fuel task 0 _) as [f w'|ex w'];
      cbn [value final_world out disk polls] in *; rewrite Hout;
      destruct Hcase as [(Hd & Hs & Hv)|(url & content & n & Hdl & Hd & Hval & Hv & Hs & Hn)];
      rewrite Hd.
    + rewrite lookup_empty. split; [exact Hv|exact Hs].
    + rewrite lookup_insert_eq. injection Hval as ->.
      split; [exists url; exact Hdl|]. split; [reflexivity|].
      split; [exact Hv|].
      change (Report.stats_of lines = [polls w']). rewrite Hs. f_equal. lia.
    + rewrite lookup_empty. split; [exact Hv|exact Hs].
    + discriminate Hval.
  - destruct (ReportFacts.report_not_accepted e iv path fuel start Hacc)
      as (lines & Hw & Hs & Hv & _).
    rewrite Hw. cbn [disk out start app]. rewrite lookup_empty.
    split; [exact Hv|exact Hs].
Qed.

(** ** The pace of the status requests *)

Module PaceFacts.

Section Hailuo.
Import MiniMax.
Variable e : env.
Variable poll_interval : Z.
Variable output_path : string.

(** A tick that ends the loop does not sleep. *)
Lemma pace_hailuo_last_tick task n (w : world msg) :
is_pending (verdict_of (status_resp e task (polls w))) = false ->
now (final_world (tick e poll_interval output_path task n w)) = now w.
Proof.
intros Hv.
destruct (verdict_of (status_resp e task (polls w))) as [file|s|code|s|ex] eqn:Hq;
  try discriminate Hv.
- rewrite (MiniMaxFacts.hailuo_tick_succeeded _ _ _ _ _ _ file Hq).
  destruct (fetch_of e file); reflexivity.
- rewrite MiniMaxFacts.hailuo_tick_spec, Hq. reflexivity.
- rewrite MiniMaxFacts.hailuo_tick_spec, Hq. reflexivity.
- rewrite MiniMaxFacts.hailuo_tick_spec, Hq. reflexivity.
Qed.

(** One poll interval is slept between two status requests, none
  before the first and none after the last. *)
Lemma pace_hailuo_poll task fuel : forall c (w : world msg),
0 <= poll_interval ->
let r := poll e poll_interval output_path fuel task c w in
(value r = Some None /\
 now (final_world r) =
   now w + poll_interval * (Z.of_nat (polls (final_world r)) - Z.of_nat (polls w))) \/
(value r <> Some None /\
 (polls w < polls (final_world r))%nat /\
 now (final_world r) + poll_interval =
   now w + poll_interval * (Z.of_nat (polls (final_world r)) - Z.of_nat (polls w))).
Proof.
induction fuel as [|fuel IH]; intros c w Hiv; cbv zeta.
{ left. cbn. split; [reflexivity|]. lia. }
destruct (is_pending (verdict_of (status_resp e task (polls w)))) eqn:Hp.
- destruct (verdict_of (status_resp e task (polls w))) as [ | | |s| ] eqn:Hq;
    try discriminate Hp.
  destruct (decide (poll_interval <= sleep_limit)) as [Hup|Hno].
  2:{ assert (E : exists ex,
                poll e poll_interval output_path (S fuel) task c w =
                Exc ex (asked w [MPolling (S c); MStatus s])).
      { cbn [poll]. unfold bind at 1. rewrite MiniMaxFacts.hailuo_tick_spec, Hq.
        unfold bind. rewrite sleep_refuses by lia. eexists. reflexivity. }
      destruct E as (ex & E). rewrite E. right.
      cbn [value final_world asked now polls]. split; [discriminate|].
      split; lia. }
  rewrite (MiniMaxFacts.hailuo_poll_pending _ _ _ _ _ _ _ s (conj Hiv Hup) Hq).
  destruct (IH (S c) (World (now w + poll_interval) (S (polls w))
                            (out w ++ [MPolling (S c); MStatus s]) (disk w)) Hiv)
    as [(Hv & Hn)|(Hv & Hlt & Hn)]; cbn [now polls] in *.
  + left. split; [exact Hv|]. rewrite Hn. lia.
  + right. split; [exact Hv|]. split; [lia|]. lia.
- rewrite (MiniMaxFacts.hailuo_poll_terminal _ _ _ _ _ _ _ Hp).
  pose proof (pace_hailuo_last_tick task (S c) w Hp) as Hnow.
  pose proof (MiniMaxFacts.hailuo_tick_asks e poll_interval output_path task (S c) w)
    as Hasks.
  right.
  destruct (tick e poll_interval output_path task (S c) w) as [f w'|ex w'];
    cbn [value final_world] in *.
  + split; [discriminate|]. rewrite Hnow, Hasks. split; lia.
  + split; [discriminate|]. rewrite Hnow, Hasks. split; lia.
Qed.
End Hailuo.

Section Kling.
Import PiAPI.
Variable e : env.

(** Every tick sleeps 5 s and issues one status request, however it
  ends. *)
Lemma pace_kling_poll task fuel : forall (w : world msg),
let r := poll e fuel task w in
now (final_world r) =
  now w + 5 * (Z.of_nat (polls (final_world r)) - Z.of_nat (polls w)).
Proof.
induction fuel as [|fuel IH]; intros w; cbv zeta.
{ cbn. lia. }
destruct (is_retry (verdict_of (status_resp e task (polls w)))) eqn:Hp.
- destruct (verdict_of (status_resp e task (polls w))) as [ | |line| ] eqn:Hq;
    try discriminate Hp.
  rewrite (PiAPIFacts.kling_poll_retry _ _ _ _ line Hq).
  rewrite (IH (slept w [MWaiting; line])). cbn [slept now polls]. lia.
- rewrite (PiAPIFacts.kling_poll_terminal _ _ _ _ Hp), PiAPIFacts.kling_tick_spec.
  destruct (verdict_of (status_resp e task (polls w)));
    cbn [final_world slept now polls]; lia.
Qed.
End Kling.

End PaceFacts.

(** X4: the MiniMax script sends its first status request right after
    the submission, sleeps the poll interval (when it is not negative)
    between two status requests, and does not sleep after the request
    whose answer ends the loop: the time slept is the poll interval
    times the number of requests while the loop is running, and times
    one less once the run has ended. *)
Theorem hailuo_sleeps_between_polls :
  forall (e : MiniMax.env) iv path fuel,
    0 <= iv ->
    let r := MiniMax.main e iv path fuel start in
    now (final_world r) =
      iv * Z.of_nat (match value r with
                     | Some None => polls (final_world r)
                     | _ => Nat.pred (polls (final_world r))
                     end).
Proof.
  intros e iv path fuel Hiv r. subst r.
  destruct (MiniMax.accepted e) as [task|] eqn:Hacc.
  - rewrite (MiniMaxFacts.hailuo_main_accepted _ _ _ _ _ _ Hacc).
    unfold start. cbn [now polls out disk app].
    destruct (PaceFacts.pace_hailuo_poll e iv path task fuel 0
                (World 0 0 [MiniMax.MSubmitting; MiniMax.MRequestCompleted;
                            MiniMax.MSubmitted task] ∅) Hiv)
      as [(Hv & Hn)|(Hv & Hlt & Hn)];
      cbv zeta in *; cbn [now polls] in *;
      destruct (MiniMax.poll e iv path fuel task 0 _) as [f w'|ex w'];
      cbn [value final_world] in *.
    + injection Hv as ->. cbn [MiniMax.exit_of]. lia.
    + discriminate Hv.
    + destruct f as [[ | | ]|]; [| | |contradiction]; cbn [MiniMax.exit_of];
        destruct (polls w'); cbn [Nat.pred]; lia.
    + destruct (polls w'); cbn [Nat.pred]; lia.
  - destruct (ReportFacts.report_not_accepted e iv path fuel start Hacc)
      as (lines & Hw & _).
    rewrite Hw. cbn [now polls start].
    destruct (value _) as [[x|]|]; cbn; lia.
Qed.

Lemma hailuo_sleeps_between_polls_witness :
  0 <= 10 /\
  now (final_world (MiniMax.main MiniMax.scenario_A 10 "out.mp4" 8 start)) = 10 /\
  polls (final_world (MiniMax.main MiniMax.scenario_A 10 "out.mp4" 8 start)) = 2%nat.
Proof.
  assert (H : 0 <= 10) by lia.
  split; [exact H|].
  pose proof (hailuo_sleeps_between_polls MiniMax.scenario_A 10 "out.mp4" 8%nat H) as T.
  cbv zeta in T. rewrite T. split; reflexivity.
Defined.

(** X5: the PiAPI script sleeps 5 s before each status request of its
    loop, the first one included, and nothing before the one further
    request that follows a "completed" answer: the time slept is 5 s
    times the number of status requests, less 5 s when the completion
    was reported. *)
Theorem kling_sleeps_before_polls :
  forall (e : PiAPI.env) path fuel,
    let r := PiAPI.main e path fuel start in
    now (final_world r) =
      5 * Z.of_nat (if existsb PiAPI.is_completed (out (final_world r))
                    then Nat.pred (polls (final_world r))
                    else polls (final_world r)).
Proof.
  intros e path fuel r. subst r.
  destruct (PiAPI.accepted e) as [task|] eqn:Hacc.
  - unfold PiAPI.main, catch.
    rewrite (PiAPIFacts.kling_main_body_accepted _ _ _ _ _ Hacc).
    unfold start. cbn [now polls out disk app].
    pose proof (PaceFacts.pace_kling_poll e task fuel
                  (World 0 0 [PiAPI.MSending; PiAPI.MSubmitted task] ∅)) as Hn.
    destruct (PiAPIFacts.kling_poll_ending e task fuel
                (World 0 0 [PiAPI.MSending; PiAPI.MSubmitted task] ∅))
      as (lines & Hout & _ & Hend).
    cbv zeta in Hn. cbn [now polls] in Hn.
    destruct (PiAPI.poll e fuel task _) as [f w'|ex w'];
      cbn [value final_world out] in Hn, Hout, Hend.
    + destruct f as [[ | | ]|].
      * destruct Hend.
      * destruct Hend as (Hc & _). rewrite PiAPIFacts.kling_fetch_spec.
        destruct (PiAPI.fetch_of e task (polls w')) as [url content|x l2|ex l2];
          unfold_m; cbn [final_world out now polls PiAPI.asked]; rewrite Hout;
          rewrite !existsb_app, Hc;
          cbn [existsb PiAPI.is_completed orb Nat.pred]; lia.
      * destruct Hend as (Hc & _). cbn [final_world]. rewrite Hout.
        cbn [app existsb PiAPI.is_completed orb]. rewrite Hc. lia.
      * destruct Hend as (Hc & _). cbn [final_world]. rewrite Hout.
        cbn [app existsb PiAPI.is_completed orb]. rewrite Hc. lia.
    + destruct Hend as (Hc & _). unfold_m. cbn [final_world out now polls].
      rewrite Hout, !existsb_app, Hc. cbn. lia.
  - destruct (PiAPIFacts.kling_main_not_accepted e path fuel start Hacc)
      as (lines & Hw & Hc & _).
    cbv zeta in Hw. rewrite Hw. cbn [now polls out start app]. rewrite Hc. lia.
Qed.

(** ** Exceptions *)



(** X7: the command line takes any whole number as the poll interval,
    but [time.sleep] takes only those from 0 to 9223372036: when the
    first answer is one that keeps the loop going, the MiniMax script
    with any other interval ends by an exception right after its first
    status request, having printed the status and written nothing.  The
    exception is a ValueError for a negative interval down to
    -9223372036 and an OverflowError beyond 9223372036 in either sign. *)
Theorem refused_poll_interval_raises :
  forall (e : MiniMax.env) iv path task fuel s,
    ~ 0 <= iv <= sleep_limit ->
    MiniMax.accepted e = Some task ->
    MiniMax.verdict_of (MiniMax.status_resp e task 0) = MiniMax.Pending s ->
    MiniMax.main e iv path (S fuel) start =
      Exc (if (iv <? - sleep_limit) || (sleep_limit <? iv)
           then OverflowError else ValueError)
          (World 0 1 [MiniMax.MSubmitting; MiniMax.MRequestCompleted;
                      MiniMax.MSubmitted task; MiniMax.MPolling 1; MiniMax.MStatus s]
                 ∅).
Proof.
  intros e iv path task fuel s Hiv Hacc Hq.
  rewrite (MiniMaxFacts.hailuo_main_accepted _ _ _ _ _ _ Hacc).
  unfold start. cbn [now polls out disk app MiniMax.poll]. unfold bind at 1.
  rewrite MiniMaxFacts.hailuo_tick_spec. cbn [polls]. rewrite Hq.
  unfold bind. rewrite (sleep_refuses _ _ Hiv). reflexivity.
Qed.

Lemma refused_poll_interval_raises_witness :
  ~ 0 <= -1 <= sleep_limit /\
  ~ 0 <= 10000000000 <= sleep_limit /\
  MiniMax.main MiniMax.scenario_C (-1) "out.mp4" 3 start =
    Exc ValueError
        (World 0 1 [MiniMax.MSubmitting; MiniMax.MRequestCompleted;
                    MiniMax.MSubmitted "abc123"; MiniMax.MPolling 1;
                    MiniMax.MStatus "Processing"] ∅) /\
  MiniMax.main MiniMax.scenario_C 10000000000 "out.mp4" 3 start =
    Exc OverflowError
        (World 0 1 [MiniMax.MSubmitting; MiniMax.MRequestCompleted;
                    MiniMax.MSubmitted "abc123"; MiniMax.MPolling 1;
                    MiniMax.MStatus "Processing"] ∅).
Proof.
  assert (H1 : ~ 0 <= -1 <= sleep_limit) by lia.
  assert (H2 : ~ 0 <= 10000000000 <= sleep_limit) by (unfold sleep_limit; lia).
  split; [exact H1|]. split; [exact H2|]. split.
  - exact (refused_poll_interval_raises MiniMax.scenario_C (-1) "out.mp4" "abc123"
             2%nat "Processing" H1 eq_refl eq_refl).
  - exact (refused_poll_interval_raises MiniMax.scenario_C 10000000000 "out.mp4"
             "abc123" 2%nat "Processing" H2 eq_refl eq_refl).
Defined.

(** ** Reading the status of a PiAPI answer *)

(** X8: the PiAPI script compares the status after lower-casing it, so
    the spelling of "completed" and "failed" does not matter: a tick on
    an answer 200 with the code 200 leaves the loop by [break] exactly
    when the lower-cased status is "completed", and ends main exactly
    when it is "failed". *)
Theorem kling_status_ignores_case :
  forall (e : PiAPI.env) task (w : world PiAPI.msg) b,
    PiAPI.status_resp e task (polls w) = Resp 200 (Some b) ->
    PiAPI.st_code b = Some 200 ->
    (value (PiAPI.tick e task w) = Some Break <->
     lower (get_or (PiAPI.status b) "") = "completed"%string) /\
    (value (PiAPI.tick e task w) = Some Return <->
     lower (get_or (PiAPI.status b) "") = "failed"%string).
Proof.
  intros e task w b Ha Hc.
  rewrite PiAPIFacts.kling_tick_spec, Ha. unfold PiAPI.verdict_of.
  cbn [Z.eqb Pos.eqb negb]. rewrite Hc, bool_decide_eq_true_2 by reflexivity.
  cbn [negb].
  destruct (String.eqb_spec (lower (get_or (PiAPI.status b) "")) "completed") as [E|E].
  { cbn [orb value]. rewrite E. split; split; try reflexivity; discriminate. }
  destruct (String.eqb_spec (lower (get_or (PiAPI.status b) "")) "Completed") as [E'|E'].
  { exfalso. exact (lower_not_capitalised _ E'). }
  cbn [orb].
  destruct (String.eqb_spec (lower (get_or (PiAPI.status b) "")) "failed") as [F|F];
    cbn [value]; split; split; intros; congruence.
Qed.

Lemma kling_status_ignores_case_witness :
  value (PiAPI.tick (PiAPI.always (PiAPI.answer "COMPLETED" PiAPI.no_error None))
                    "abc123" start) = Some Break /\
  value (PiAPI.tick (PiAPI.always (PiAPI.answer "Failed" PiAPI.no_error None))
                    "abc123" start) = Some Return.
Proof.
  split.
  - apply (kling_status_ignores_case
             (PiAPI.always (PiAPI.answer "COMPLETED" PiAPI.no_error None))
             "abc123" start _ eq_refl eq_refl).
    reflexivity.
  - apply (kling_status_ignores_case
             (PiAPI.always (PiAPI.answer "Failed" PiAPI.no_error None))
             "abc123" start _ eq_refl eq_refl).
    reflexivity.
Defined.

(** X9: the progress that the PiAPI script prints with a status is the
    one of the last log entry that has a "progress" key, and "unknown"
    when no entry has one. *)
Theorem last_progress_is_last_entry :
  forall logs : list (option string),
    PiAPI.last_progress logs = default "unknown"%string (last (omap id logs)).
Proof.
  intros logs. unfold PiAPI.last_progress.
  assert (H : forall (l : list (option string)) acc,
             fold_left (fun progress log =>
                          match log with Some p => p | None => progress end) l acc
             = default acc (last (omap id l))).
  { induction l as [|x l IH]; intros acc; [reflexivity|].
    cbn [fold_left]. rewrite IH. clear IH. destruct x as [p|].
    - change (omap id (Some p :: l)) with (p :: omap id l).
      destruct (omap id l) as [|y l']; [reflexivity|].
      change (last (p :: y :: l')) with (last (y :: l')).
      destruct (last (y :: l')) eqn:E; [reflexivity|].
      apply last_None in E. discriminate E.
    - reflexivity. }
  apply H.
Qed.

(** ** runway_gen2.py *)



(** ** The generated file name *)











(** ** Before the request *)

Lemma truthy_not_empty (o : option string) :
  truthy o = true -> exists s, o = Some s /\ s <> ""%string.
Proof.
  destruct o as [s|]; [|discriminate]. cbn [truthy]. intros H.
  exists s. split; [reflexivity|]. intros ->. discriminate H.
Qed.

(** X12: the PiAPI script never sends a request for a local image.  The
    command line must give exactly one of --image and --image_url; with
    --image, main ends before the request whether the file exists or
    not, because upload_image raises NotImplementedError on every path.
    The request is reached only with --image_url alone and a non-empty
    API key, the one of --api_key when that is non-empty and the one of
    the environment otherwise. *)
Theorem kling_needs_image_url :
  forall (a : PiAPISetup.args) environ_key isfile,
    (truthy (PiAPISetup.image a) = true ->
     forall key url, PiAPISetup.start_up a environ_key isfile <> PiAPISetup.Ready key url) /\
    (forall key url,
        PiAPISetup.start_up a environ_key isfile = PiAPISetup.Ready key url ->
        truthy (PiAPISetup.image a) = false /\
        url = PiAPISetup.image_url a /\
        truthy url = true /\
        key <> ""%string /\
        Some key = (if truthy (PiAPISetup.api_key a)
                    then PiAPISetup.api_key a else environ_key)) /\
    (PiAPISetup.start_up a environ_key isfile = PiAPISetup.UsageError <->
     truthy (PiAPISetup.image a) = truthy (PiAPISetup.image_url a)).
Proof.
  intros a environ_key isfile.
  unfold PiAPISetup.start_up, PiAPISetup.parse_args, PiAPISetup.upload_image, py_or.
  destruct (truthy (PiAPISetup.image a)) eqn:Hi,
           (truthy (PiAPISetup.image_url a)) eqn:Hu; cbn [negb andb].
  - split; [intros _ key url; discriminate|].
    split; [intros key url; discriminate|]. split; reflexivity.
  - rewrite Hi.
    assert (Hno : forall x,
               (if negb (truthy (if truthy (PiAPISetup.api_key a)
                                 then PiAPISetup.api_key a else environ_key))
                then PiAPISetup.NoApiKey
                else if negb (isfile (get_or (PiAPISetup.image a) ""))
                     then PiAPISetup.NoImage
                     else PiAPISetup.UploadNotImplemented) = x ->
               x = PiAPISetup.NoApiKey \/ x = PiAPISetup.NoImage \/
               x = PiAPISetup.UploadNotImplemented).
    { intros x <-. destruct (negb (truthy _)); [left; reflexivity|].
      destruct (negb (isfile _)); right; [left|right]; reflexivity. }
    split; [|split; [|split]].
    + intros _ key url H. destruct (Hno _ H) as [E|[E|E]]; discriminate E.
    + intros key url H. destruct (Hno _ H) as [E|[E|E]]; discriminate E.
    + intros H. destruct (Hno _ H) as [E|[E|E]]; discriminate E.
    + discriminate.
  - rewrite Hi. split; [discriminate|]. split; [|split; [|discriminate]].
    + intros key url.
      destruct (truthy (PiAPISetup.api_key a)) eqn:Hk.
      * rewrite Hk. cbn [negb]. intros [= <- <-].
        destruct (truthy_not_empty _ Hk) as (s & Hs & Hne). rewrite Hs. cbn [get_or].
        repeat split; [exact Hu|exact Hne].
      * destruct (truthy environ_key) eqn:He; cbn [negb]; [|discriminate].
        intros [= <- <-].
        destruct (truthy_not_empty _ He) as (s & Hs & Hne). rewrite Hs. cbn [get_or].
        repeat split; [exact Hu|exact Hne].
    + destruct (negb (truthy _)); discriminate.
  - split; [discriminate|].
    split; [intros key url; discriminate|]. split; reflexivity.
Qed.

(** X13: the MiniMax and the Runway script go on to their request only
    with a non-empty API key and an existing image file; the key is the
    one of --api_key when that is non-empty and the one of the
    environment otherwise.  They check in opposite orders: the MiniMax
    script reports a missing key whatever the image is, the Runway
    script a missing image whatever the key is.  The MiniMax script
    takes a non-empty --output as it is and generates a name otherwise. *)
Theorem start_up_checks :
  forall (am : MiniMaxSetup.args) (ar : RunwaySetup.args) environ_key isfile
         timestamp uuid,
    match MiniMaxSetup.start_up am environ_key isfile timestamp uuid with
    | MiniMaxSetup.NoApiKey =>
        truthy (MiniMaxSetup.api_key am) = false /\ truthy environ_key = false
    | MiniMaxSetup.NoImage =>
        isfile (MiniMaxSetup.image am) = false /\
        truthy (py_or (MiniMaxSetup.api_key am) environ_key) = true
    | MiniMaxSetup.Ready key to =>
        key <> ""%string /\
        Some key = (if truthy (MiniMaxSetup.api_key am)
                    then MiniMaxSetup.api_key am else environ_key) /\
        isfile (MiniMaxSetup.image am) = true /\
        match to with
        | MiniMaxSetup.Given path =>
            MiniMaxSetup.output am = Some path /\ path <> ""%string
        | MiniMaxSetup.Generated dir name =>
            truthy (MiniMaxSetup.output am) = false /\
            dir = ["outputs"; "minMax";
                   MiniMaxSetup.safe_model (MiniMaxSetup.model am)]%string /\
            name = MiniMaxSetup.generate_unique_filename
                     timestamp uuid (MiniMaxSetup.prompt am)
                     (MiniMaxSetup.model am) ".mp4"
        end
    end /\
    match RunwaySetup.start_up ar environ_key isfile with
    | RunwaySetup.NoImage => isfile (RunwaySetup.image ar) = false
    | RunwaySetup.NoApiKey =>
        isfile (RunwaySetup.image ar) = true /\
        truthy (RunwaySetup.api_key ar) = false /\ truthy environ_key = false
    | RunwaySetup.Ready key =>
        key <> ""%string /\
        Some key = (if truthy (RunwaySetup.api_key ar)
                    then RunwaySetup.api_key ar else environ_key) /\
        isfile (RunwaySetup.image ar) = true
    end.
Proof.
  intros am ar environ_key isfile timestamp uuid.
  assert (Hkey : forall arg : option string,
             truthy (py_or arg environ_key) = true ->
             get_or (py_or arg environ_key) "" <> ""%string /\
             Some (get_or (py_or arg environ_key) "")
               = (if truthy arg then arg else environ_key)).
  { intros arg H. destruct (truthy_not_empty _ H) as (s & Hs & Hne).
    rewrite Hs. cbn [get_or]. split; [exact Hne|].
    rewrite <- Hs. reflexivity. }
  split.
  - unfold MiniMaxSetup.start_up. cbv zeta.
    destruct (truthy (py_or (MiniMaxSetup.api_key am) environ_key)) eqn:Hk; cbn [negb].
    + destruct (isfile (MiniMaxSetup.image am)) eqn:Hf; cbn [negb].
      * destruct (Hkey _ Hk) as [Hne Hsome].
        split; [exact Hne|]. split; [exact Hsome|]. split; [reflexivity|].
        destruct (truthy (MiniMaxSetup.output am)) eqn:Ho.
        -- destruct (truthy_not_empty _ Ho) as (s & Hs & Hs'). rewrite Hs.
           cbn [get_or]. split; [reflexivity|exact Hs'].
        -- repeat split.
      * split; reflexivity.
    + unfold py_or in Hk.
      destruct (truthy (MiniMaxSetup.api_key am)) eqn:Ha; [congruence|].
      split; [reflexivity|exact Hk].
  - unfold RunwaySetup.start_up. cbv zeta.
    destruct (isfile (RunwaySetup.image ar)) eqn:Hf; cbn [negb]; [|reflexivity].
    destruct (truthy (py_or (RunwaySetup.api_key ar) environ_key)) eqn:Hk; cbn [negb].
    + destruct (Hkey _ Hk) as [Hne Hsome].
      split; [exact Hne|]. split; [exact Hsome|reflexivity].
    + unfold py_or in Hk.
      destruct (truthy (RunwaySetup.api_key ar)) eqn:Ha; [congruence|].
      split; [reflexivity|]. split; [reflexivity|exact Hk].
Qed.

(** A command line with --image_url alone and the key in the
    environment reaches the request; one with --image does not. *)
Example kling_start_up_cases :
  PiAPISetup.start_up
    {| PiAPISetup.image := None;
       PiAPISetup.image_url := Some "https://host/cat.png"%string;
       PiAPISetup.prompt := "a cat"; PiAPISetup.api_key := Some ""%string |}
    (Some "secret"%string) (fun _ => false)
    = PiAPISetup.Ready "secret" (Some "https://host/cat.png"%string) /\
  PiAPISetup.start_up
    {| PiAPISetup.image := Some "cat.png"%string; PiAPISetup.image_url := None;
       PiAPISetup.prompt := "a cat"; PiAPISetup.api_key := Some "secret"%string |}
    None (fun _ => true)
    = PiAPISetup.UploadNotImplemented.
Proof. split; reflexivity. Qed.

(** ** What a run of the PiAPI script leaves behind *)

(** X14: after a run of the PiAPI script from an empty disk, the output
    file exists exactly when main ended at its last line.  The run has
    then reported the completion, its last line is the saved line, and
    the file holds the whole body of a download answered 200. *)
Theorem kling_saved_file_is_reported :
  forall (e : PiAPI.env) path fuel,
    let r := PiAPI.main e path fuel start in
    match disk (final_world r) !! path with
    | Some content =>
        (exists url, PiAPI.download_resp e url = Resp 200 content) /\
        value r = Some (Some PiAPI.Saved) /\
        existsb PiAPI.is_completed (out (final_world r)) = true /\
        last (out (final_world r)) = Some (PiAPI.MSaved path)
    | None => value r <> Some (Some PiAPI.Saved)
    end.
Proof.
  intros e path fuel r. subst r.
  destruct (PiAPI.accepted e) as [task|] eqn:Hacc.
  - unfold PiAPI.main, catch.
    rewrite (PiAPIFacts.kling_main_body_accepted _ _ _ _ _ Hacc).
    unfold start. cbn [now polls out disk app].
    destruct (PiAPIFacts.kling_poll_ending e task fuel
                (World 0 0 [PiAPI.MSending; PiAPI.MSubmitted task] ∅))
      as (lines & Hout & Hdisk & Hend).
    destruct (PiAPI.poll e fuel task _) as [f w'|ex w'];
      cbn [value final_world out disk] in Hout, Hdisk, Hend.
    + destruct f as [[ | | ]|].
      * destruct Hend.
      * destruct Hend as (Hc & _). rewrite PiAPIFacts.kling_fetch_spec.
        destruct (PiAPI.fetch_of e task (polls w')) as [url content|x l2|ex l2] eqn:Hf;
          unfold_m; cbn [value final_world out disk PiAPI.asked]; rewrite Hdisk.
        -- rewrite lookup_insert_eq.
           split; [exists url; exact (PiAPIFacts.kling_fetch_of_stored _ _ _ _ _ Hf)|].
           split; [reflexivity|]. split.
           ++ rewrite Hout, !existsb_app, Hc. reflexivity.
           ++ apply last_after. reflexivity.
        -- rewrite lookup_empty.
           destruct (PiAPIFacts.kling_fetch_of_refused _ _ _ _ _ Hf) as (_ & _ & Hx & _).
           intros [= ->]. discriminate Hx.
        -- rewrite lookup_empty. discriminate.
      * cbn [value final_world]. rewrite Hdisk, lookup_empty. discriminate.
      * cbn [value final_world]. rewrite Hdisk, lookup_empty. discriminate.
    + unfold_m. cbn [value final_world disk]. rewrite Hdisk, lookup_empty. discriminate.
  - destruct (PiAPIFacts.kling_main_not_accepted e path fuel start Hacc)
      as (lines & Hw & _).
    cbv zeta in Hw. rewrite Hw. cbn [disk start]. rewrite lookup_empty.
    unfold PiAPI.accepted in Hacc. unfold PiAPI.main, PiAPI.main_body, catch. unfold_m.
    destruct (PiAPI.submit_resp e) as [|code [sb|]]; try (cbn; discriminate).
    + destruct (code =? 200); cbn [negb andb] in *; [|cbn; discriminate].
      cbn [json].
      destruct (bool_decide (PiAPI.code sb = Some 200)); cbn [negb andb] in *;
        [|cbn; discriminate].
      destruct (truthy (PiAPI.task_id sb)) eqn:Ht; cbn [negb].
      * destruct (PiAPI.task_id sb); discriminate.
      * cbn. discriminate.
    + destruct (negb (code =? 200)); cbn; discriminate.
Qed.
